(** * krakend-cobra: the [check] command (check.go)

  A shallow embedding of [cmd/check.go]: the configuration check
  pipeline [checkFunc], the route simulation [RunRouterFunc], the
  version helper [getVersionMinor] and the HTTP schema loader
  [HTTPURLLoader.Load].

  Go values are modelled as follows.
  - [string] and [[]byte] are Rocq [string]s (sequences of bytes).
  - [int] is [Z]; no arithmetic on it is performed by this file.
  - an [error] is represented by the text its [Error()] method yields;
    [nil] errors are [None] / the [Ok] branch of [result].
  - package-level variables live in the record [Globals]; the one that
    [checkFunc] assigns ([schemaPath]) is part of the mutable [State].
  - calls into other packages (parser, jsonschema, dumper, router,
    net/http, os) are fields of the record [Env]; every such call is
    logged as an [Event], so that statements about order and about what
    was (not) called are statements about the trace. *)

From Stdlib Require Import ZArith String Ascii List DecimalString Sorted.
From stdpp Require Import base list strings.

Local Open Scope Z_scope.

(** ** Go text primitives *)

Module GoText.

Definition dot : ascii := "."%char.
Definition tab : string := String (ascii_of_nat 9) "".
Definition nl : string := String (ascii_of_nat 10) "".

(** [strings.Split(s, sep)] for a one-byte separator: all the substrings
    between separators; an input without separator is returned whole, and
    the empty input yields one empty component. *)
Fixpoint Split (s : string) (sep : ascii) : list string :=
  match s with
  | EmptyString => [""]
  | String a s' =>
      if Ascii.eqb a sep then "" :: Split s' sep
      else match Split s' sep with
           | h :: t => String a h :: t
           | [] => [String a ""]
           end
  end.

(** [strings.Join(comps, sep)], used to state what [Split] computes. *)
Fixpoint Join (comps : list string) (sep : string) : string :=
  match comps with
  | [] => ""
  | [c] => c
  | c :: cs => c +:+ sep +:+ Join cs sep
  end.

Fixpoint occurs (c : ascii) (s : string) : nat :=
  match s with
  | EmptyString => 0%nat
  | String a s' => ((if Ascii.eqb a c then 1 else 0) + occurs c s')%nat
  end.

(** Arguments of the [fmt] formatting functions. *)
Inductive Arg :=
| AStr (s : string)
| AInt (n : Z).

(** [%d] on an [int]: decimal digits, with a sign when negative. *)
Definition itoa (n : Z) : string := NilZero.string_of_int (Z.to_int n).

(** What a verb prints for an operand.  Only the verbs that check.go uses
    are given their meaning ([%s] on a string, [%d] on an int); any other
    pairing prints fmt's bad-verb marker. *)
Definition verb (v : ascii) (a : Arg) : string :=
  match a with
  | AStr s => if Ascii.eqb v "s" then s else "%!" +:+ String v "(string=" +:+ s +:+ ")"
  | AInt n => if Ascii.eqb v "d" then itoa n else "%!" +:+ String v "(int=" +:+ itoa n +:+ ")"
  end.

(** [fmt.Sprintf(format, args...)]: the format is copied, and each
    [%]verb consumes the next operand.  The formats of check.go have no
    escaped percent sign and as many verbs as operands; what fmt does with
    those is left out. *)
Fixpoint Sprintf (format : string) (args : list Arg) : string :=
  match format with
  | EmptyString => ""
  | String c EmptyString => String c ""
  | String c (String v rest as tl) =>
      if Ascii.eqb c "%" then
        match args with
        | a :: args' => verb v a +:+ Sprintf rest args'
        | [] => "%!" +:+ String v "(MISSING)" +:+ Sprintf rest []
        end
      else String c (Sprintf tl args)
  end.

End GoText.

Import GoText.

(** ** check.go, pure helpers *)

(** [var onlineSchema = "https://www.krakend.io/schema/v%s/krakend.json"] *)
Definition onlineSchema : string := "https://www.krakend.io/schema/v%s/krakend.json".

(** [func getVersionMinor(ver string) string] *)
Definition getVersionMinor (ver : string) : string :=
  let comps := Split ver dot in
  if (Z.of_nat (length comps) <? 2) then ver
  else Sprintf "%s.%s" [AStr (nth 0 comps ""); AStr (nth 1 comps "")].

(** ** Values exchanged with the other packages *)

(** A Go [error], by the text of its [Error()] method. *)
Definition error := string.

(** A [(T, error)] pair of results. *)
Inductive result (A : Type) :=
  | Ok (a : A)
  | Err (e : error).
Arguments Ok {A} a.
Arguments Err {A} e.

(** The operand of a [panic]: a value of type [any].  Three shapes are
    told apart: a string, an [error] (with the name of its dynamic type),
    and any other value (by the name of its dynamic type). *)
Inductive PanicValue :=
  | PString (s : string)
  | PError (typ : string) (msg : string)
  | POther (typ : string).

Definition dynType (r : PanicValue) : string :=
  match r with
  | PString _ => "string"
  | PError typ _ => typ
  | POther typ => typ
  end.

(** The type assertion [r.(string)] in its one-result form: it yields the
    string, or panics with a [*runtime.TypeAssertionError]. *)
Definition assertString (r : PanicValue) : string + PanicValue :=
  match r with
  | PString s => inl s
  | _ => inr (PError "*runtime.TypeAssertionError"
                ("interface conversion: interface {} is " +:+ dynType r +:+ ", not string"))
  end.

(** How a Go function call ends. *)
Inductive Outcome (A : Type) :=
  | Returns (a : A)
  | Exits (code : Z)
  | Panics (v : PanicValue).
Arguments Returns {A} a.
Arguments Exits {A} code.
Arguments Panics {A} v.

(** A [context.Context] made by [context.WithTimeout]; times are in
    nanoseconds, as [time.Duration] is. *)
Record Context := { deadline : Z; cancelled : bool }.

Definition time_Second : Z := 1000000000.

(** [http.StatusOK] *)
Definition http_StatusOK : Z := 200.

(** The part of [*http.Response] that the loader looks at. *)
Record Response := { StatusCode : Z; Body : string }.

(** What one call of the routing layer's [Run] does: how long it takes,
    and whether it ends in a panic. *)
Record RunOutcome := { elapsed : Z; fault : option PanicValue }.

(** The loaders that check.go puts in its [jsonschema.SchemeURLLoader]:
    [jsonschema.FileLoader{}] and the [HTTPURLLoader] made from an
    [http.Client] with the given timeout. *)
Inductive URLLoader :=
  | FileLoader
  | HTTPLoader (timeout : Z).

Definition SchemeURLLoader := list (string * URLLoader).

Fixpoint loaderFor (l : SchemeURLLoader) (scheme : string) : option URLLoader :=
  match l with
  | [] => None
  | (k, v) :: l' => if String.eqb k scheme then Some v else loaderFor l' scheme
  end.

Section Check.

(** Types owned by other packages: the fields of [config.ServiceConfig]
    that check.go does not touch, a decoded JSON value, and a compiled
    [*jsonschema.Schema]. *)
Context {Fields JSONValue Schema : Type}.

(** [config.ServiceConfig] *)
Record ServiceConfig := { Debug : bool; Port : Z; others : Fields }.

(** A [*jsonschema.Compiler]: as made by [NewCompiler], then configured
    by [UseLoader] or [AddResource]. *)
Record Compiler := {
  useLoader : option SchemeURLLoader;
  resources : list (string * JSONValue)
}.

Definition NewCompiler : Compiler := {| useLoader := None; resources := [] |}.
Definition UseLoader (c : Compiler) (l : SchemeURLLoader) : Compiler :=
  {| useLoader := Some l; resources := resources c |}.
Definition AddResource (c : Compiler) (name : string) (doc : JSONValue) : Compiler :=
  {| useLoader := useLoader c; resources := resources c ++ [(name, doc)] |}.

(** Every call that leaves check.go. *)
Inductive Event :=
| EvPrint (text : string)
| EvParse (path : string)
| EvLastSource
| EvReadFile (path : string)
| EvJSONUnmarshal (data : string)
| EvCompile (c : Compiler) (name : string)
| EvUnmarshalJSON (text : string)
| EvValidate (sch : Schema) (doc : JSONValue)
| EvDump (prefix : string) (level : Z) (tty : bool) (v : ServiceConfig)
| EvSetMode (mode : string)
| EvWithTimeout (ctx : nat)
| EvRun (ctx : nat) (cfg : ServiceConfig)
| EvCancel (ctx : nat)
| EvGet (url : string)
| EvBodyClose (url : string).

(** The package-level variables that check.go reads, and the constants
    it takes from [core] and [dumper]. *)
Record Globals := {
  cfgFile : string;
  schemaValidation : bool;
  schemaFetchOnline : bool;
  rawEmbedSchema : string;
  debug : Z;
  port : Z;
  checkGinRoutes : bool;
  IsTTY : bool;
  checkDumpPrefix : string;
  KrakendVersion : string;
  ColorRed : string;
  ColorGreen : string;
  ColorReset : string
}.

(** The other packages, as far as check.go calls them.
    [parser_LastSource] is [Some] exactly when the dynamic type of
    [parser] implements [LastSourcer]. *)
Record Env := {
  parser_Parse : string -> result ServiceConfig;
  parser_LastSource : option (result string);
  os_ReadFile : string -> result string;
  json_Unmarshal : string -> result JSONValue;
  jsonschema_UnmarshalJSON : string -> result JSONValue;
  jsonschema_Compile : Compiler -> string -> result Schema;
  Schema_Validate : Schema -> JSONValue -> option error;
  dumper_Dump : string -> Z -> bool -> ServiceConfig -> option error;
  router_Run : ServiceConfig -> RunOutcome;
  client_Get : string -> result Response
}.

(** The state that calls change: the package variable [schemaPath], the
    clock, and the contexts made so far (a context is named by its index). *)
Record State := {
  schemaPath : string;
  clock : Z;
  contexts : list Context
}.

(** ** The monad of Go calls: state, a log of events, and three ways to end *)

Record Run (A : Type) := { outcome : Outcome A; final : State; events : list Event }.
Arguments outcome {A} r.
Arguments final {A} r.
Arguments events {A} r.

Definition Act (A : Type) := State -> Run A.

Definition ret {A} (a : A) : Act A :=
  fun s => {| outcome := Returns a; final := s; events := [] |}.

Definition bind {A B} (m : Act A) (f : A -> Act B) : Act B :=
  fun s =>
    let r := m s in
    match outcome r with
    | Returns a =>
        let r' := f a (final r) in
        {| outcome := outcome r'; final := final r'; events := events r ++ events r' |}
    | Exits c => {| outcome := Exits c; final := final r; events := events r |}
    | Panics v => {| outcome := Panics v; final := final r; events := events r |}
    end.

Notation "x <- m ;; k" := (bind m (fun x => k))
  (at level 100, m at next level, right associativity).
Notation "m ;; k" := (bind m (fun _ => k))
  (at level 100, right associativity).

(** An outside call: logged, and its result handed back. *)
Definition call {A} (e : Event) (a : A) : Act A :=
  fun s => {| outcome := Returns a; final := s; events := [e] |}.

(** [os.Exit(code)] *)
Definition os_Exit {A} (code : Z) : Act A :=
  fun s => {| outcome := Exits code; final := s; events := [] |}.

(** [cmd.Print], [cmd.Println], [cmd.Printf] *)
Definition Print (text : string) : Act unit := call (EvPrint text) tt.
Definition Println (text : string) : Act unit := call (EvPrint (text +:+ nl)) tt.
Definition Printf (format : string) (args : list Arg) : Act unit :=
  call (EvPrint (Sprintf format args)) tt.

Definition get_schemaPath : Act string :=
  fun s => {| outcome := Returns (schemaPath s); final := s; events := [] |}.

Definition set_schemaPath (p : string) : Act unit :=
  fun s => {| outcome := Returns tt;
              final := {| schemaPath := p; clock := clock s; contexts := contexts s |};
              events := [] |}.

(** [context.WithTimeout(context.Background(), d)]: a new context whose
    deadline is [d] from now. *)
Definition context_WithTimeout (d : Z) : Act nat :=
  fun s =>
    let h := length (contexts s) in
    {| outcome := Returns h;
       final := {| schemaPath := schemaPath s; clock := clock s;
                   contexts := contexts s ++ [{| deadline := clock s + d; cancelled := false |}] |};
       events := [EvWithTimeout h] |}.

(** The [cancel] function that [WithTimeout] returns. *)
Definition cancel (h : nat) : Act unit :=
  fun s =>
    {| outcome := Returns tt;
       final := {| schemaPath := schemaPath s; clock := clock s;
                   contexts := alter (fun c => {| deadline := deadline c; cancelled := true |})
                                     h (contexts s) |};
       events := [EvCancel h] |}.

(** A context is done once it was cancelled or its deadline has passed. *)
Definition ctxDone (s : State) (h : nat) : bool :=
  match contexts s !! h with
  | Some c => cancelled c || (deadline c <=? clock s)
  | None => false
  end.

Variable env : Env.
Variable g : Globals.


(** [panic(v)] *)
Definition panic {A} (v : PanicValue) : Act A :=
  fun s => {| outcome := Panics v; final := s; events := [] |}.

(** [defer d(); body], where [d] neither recovers nor touches results:
    [d] runs when [body] returns or panics, not when the process exits. *)
Definition defer_ {A} (d : Act unit) (body : Act A) : Act A :=
  fun s =>
    let r := body s in
    match outcome r with
    | Exits _ => r
    | _ =>
        let r' := d (final r) in
        {| outcome := match outcome r' with
                      | Returns _ => outcome r
                      | Exits c => Exits c
                      | Panics v => Panics v
                      end;
           final := final r';
           events := events r ++ events r' |}
    end.

(** [defer func() { ... recover() ... }(); body] in a function with one
    named result.  The deferred closure [d] receives what [recover()]
    yields ([None] when the body is not panicking) and the named result
    (still its zero value when the body panicked), and gives the result
    that the function returns; a panic of [d] itself leaves the function. *)
Definition deferRecover {A} (zero : A) (d : option PanicValue -> A -> Act A)
    (body : Act A) : Act A :=
  fun s =>
    let r := body s in
    match outcome r with
    | Exits _ => r
    | Returns a =>
        let r' := d None a (final r) in
        {| outcome := outcome r'; final := final r'; events := events r ++ events r' |}
    | Panics v =>
        let r' := d (Some v) zero (final r) in
        {| outcome := outcome r'; final := final r'; events := events r ++ events r' |}
    end.

(** ** check.go *)

(** [func errorMsg(content string) string] *)
Definition errorMsg (content : string) : string :=
  if negb (IsTTY g) then content
  else ColorRed g +:+ content +:+ ColorReset g.

(** [krakendgin.DefaultFactory(...).NewWithContext(ctx).Run(cfg)]: time
    passes, and the call returns or panics. *)
Definition Router_Run (ctx : nat) (cfg : ServiceConfig) : Act unit :=
  fun s =>
    let o := router_Run env cfg in
    {| outcome := match fault o with
                  | None => Returns tt
                  | Some v => Panics v
                  end;
       final := {| schemaPath := schemaPath s; clock := clock s + elapsed o;
                   contexts := contexts s |};
       events := [EvRun ctx cfg] |}.

(** The closure deferred by [RunRouterFunc]:
    [if r := recover(); r != nil { err = errors.New(r.(string)) }] *)
Definition recoverAsError (r : option PanicValue) (err : option error)
    : Act (option error) :=
  match r with
  | None => ret err
  | Some v =>
      match assertString v with
      | inl msg => ret (Some msg)
      | inr p => panic p
      end
  end.

(** [var RunRouterFunc = func(cfg config.ServiceConfig) (err error)] *)
Definition RunRouterFunc (cfg : ServiceConfig) : Act (option error) :=
  deferRecover None recoverAsError
    (call (EvSetMode "release") tt ;;
     let cfg := {| Debug := Debug cfg || (0 <? debug g); Port := Port cfg;
                   others := others cfg |} in
     let cfg := if negb (port g =? 0)
                then {| Debug := Debug cfg; Port := port g; others := others cfg |}
                else cfg in
     ctx <- context_WithTimeout time_Second ;;
     Router_Run ctx cfg ;;
     cancel ctx ;;
     ret None).

(** [func (l *HTTPURLLoader) Load(url string) (interface{}, error)] *)
Definition HTTPURLLoader_Load (url : string) : Act (result JSONValue) :=
  r <- call (EvGet url) (client_Get env url) ;;
  match r with
  | Err e => ret (Err e)
  | Ok resp =>
      if negb (StatusCode resp =? http_StatusOK) then
        call (EvBodyClose url) tt ;;
        ret (Err (Sprintf "%s returned status code %d" [AStr url; AInt (StatusCode resp)]))
      else
        defer_ (call (EvBodyClose url) tt)
          (call (EvUnmarshalJSON (Body resp)) (jsonschema_UnmarshalJSON env (Body resp)))
  end.

(** The detail that every error line ends with: [fmt.Sprintf("\t%s\n", err.Error())] *)
Definition detail (e : error) : string := Sprintf (tab +:+ "%s" +:+ nl) [AStr e].

(** The loader table of the compiler for a schema location. *)
Definition httpLoader : URLLoader := HTTPLoader (10 * time_Second).
Definition loader : SchemeURLLoader :=
  [("file", FileLoader); ("http", httpLoader); ("https", httpLoader)].

(** [checkFunc] is given in five parts, in the order of its text: the
    three optional blocks after parsing, the final report, and the function
    itself, which checks the path, parses, and runs the parts in sequence. *)

(** [checkFunc], lines 61-143: [if schemaValidation { ... }], where [v]
    has been parsed. *)
Definition checkFunc_lint : Act unit :=
  if schemaValidation g then
    Print ("Linting configuration file..." +:+ nl) ;;
    content <- match parser_LastSource env with
               | Some src => call EvLastSource src
               | None => call (EvReadFile (cfgFile g)) (os_ReadFile env (cfgFile g))
               end ;;
    match content with
    | Err e =>
        Println (errorMsg "ERROR loading the configuration content:" +:+ detail e) ;;
        os_Exit 1
    | Ok data =>
    decoded <- call (EvJSONUnmarshal data) (json_Unmarshal env data) ;;
    match decoded with
    | Err e =>
        Println (errorMsg "ERROR converting configuration content to JSON:" +:+ detail e) ;;
        os_Exit 1
    | Ok raw =>
    path <- get_schemaPath ;;
    if (0 <? Z.of_nat (String.length path)) && schemaFetchOnline g then
      Println (errorMsg "You cannot use both the --schema and --online options simultaneously. These arguments are mutually exclusive.") ;;
      os_Exit 1
    else
    (if schemaFetchOnline g || String.eqb (rawEmbedSchema g) "" then
       set_schemaPath (Sprintf onlineSchema [AStr (getVersionMinor (KrakendVersion g))])
     else ret tt) ;;
    path <- get_schemaPath ;;
    sch <- (if 0 <? Z.of_nat (String.length path) then
              Printf ("Using schema %s" +:+ nl) [AStr path] ;;
              let compiler := NewCompiler in
              let compiler := UseLoader compiler loader in
              compiled <- call (EvCompile compiler path) (jsonschema_Compile env compiler path) ;;
              match compiled with
              | Err e =>
                  Println (errorMsg "ERROR compiling the custom schema:" +:+ detail e) ;;
                  os_Exit 1
              | Ok sch => ret sch
              end
            else
              doc <- call (EvUnmarshalJSON (rawEmbedSchema g))
                          (jsonschema_UnmarshalJSON env (rawEmbedSchema g)) ;;
              match doc with
              | Err e =>
                  Println (errorMsg "ERROR parsing the embed schema:" +:+ detail e) ;;
                  os_Exit 1
              | Ok rawSchema =>
                  let compiler := NewCompiler in
                  let compiler := AddResource compiler "schema.json" rawSchema in
                  compiled <- call (EvCompile compiler "schema.json")
                                   (jsonschema_Compile env compiler "schema.json") ;;
                  match compiled with
                  | Err e =>
                      Println (errorMsg "ERROR compiling the embed schema:" +:+ detail e) ;;
                      os_Exit 1
                  | Ok sch => ret sch
                  end
              end) ;;
    verdict <- call (EvValidate sch raw) (Schema_Validate env sch raw) ;;
    match verdict with
    | Some e =>
        Println (errorMsg "ERROR linting the configuration file:" +:+ detail e) ;;
        os_Exit 1
    | None => ret tt
    end
    end
    end
  else ret tt.

(** [checkFunc], lines 145-152: [if debug > 0 { ... }] *)
Definition checkFunc_dump (v : ServiceConfig) : Act unit :=
  if 0 <? debug g then
    dumped <- call (EvDump (checkDumpPrefix g) (debug g) (IsTTY g) v)
                   (dumper_Dump env (checkDumpPrefix g) (debug g) (IsTTY g) v) ;;
    match dumped with
    | Some e =>
        Println (errorMsg "ERROR checking the configuration file:" +:+ detail e) ;;
        os_Exit 1
    | None => ret tt
    end
  else ret tt.

(** [checkFunc], lines 154-160: [if checkGinRoutes { ... }] *)
Definition checkFunc_routes (v : ServiceConfig) : Act unit :=
  if checkGinRoutes g then
    tested <- RunRouterFunc v ;;
    match tested with
    | Some e =>
        Println (errorMsg "ERROR testing the configuration file:" +:+ detail e) ;;
        os_Exit 1
    | None => ret tt
    end
  else ret tt.

(** [checkFunc], lines 162-166: the confirmation. *)
Definition checkFunc_report : Act unit :=
  if IsTTY g then
    Printf ("%sSyntax OK!%s" +:+ nl) [AStr (ColorGreen g); AStr (ColorReset g)]
  else
    Println "Syntax OK!".

(** [func checkFunc(cmd *cobra.Command, _ []string)] *)
Definition checkFunc : Act unit :=
  if String.eqb (cfgFile g) "" then
    Println (errorMsg "Please, provide the path to the configuration file with --config or see all the options with --help") ;;
    os_Exit 1
  else
  Printf ("Parsing configuration file: %s" +:+ nl) [AStr (cfgFile g)] ;;
  parsed <- call (EvParse (cfgFile g)) (parser_Parse env (cfgFile g)) ;;
  match parsed with
  | Err e =>
      Println (errorMsg "ERROR parsing the configuration file:" +:+ detail e) ;;
      os_Exit 1
  | Ok v =>
      checkFunc_lint ;;
      checkFunc_dump v ;;
      checkFunc_routes v ;;
      checkFunc_report
  end.

End Check.

Arguments outcome {Fields JSONValue Schema A} r.
Arguments final {Fields JSONValue Schema A} r.
Arguments events {Fields JSONValue Schema A} r.


(** * Observations on runs, and the specification's vocabulary *)

Section Observations.

Context {Fields JSONValue Schema : Type}.

(** A run with some earlier events put in front. *)
Definition pre {A} (l : list (@Event Fields JSONValue Schema))
    (r : @Run Fields JSONValue Schema A) : @Run Fields JSONValue Schema A :=
  {| outcome := outcome r; final := final r; events := l ++ events r |}.

(** The exit status of the process that runs [checkFunc] as its command:
    0 when the function returns, the argument of [os.Exit], and 2 (the Go
    runtime's status) when a panic is not recovered. *)
Definition exitStatus {A} (o : Outcome A) : Z :=
  match o with
  | Returns _ => 0
  | Exits code => code
  | Panics _ => 2
  end.

(** The events that are calls of the routing layer's [Run]. *)
Definition isRun (e : @Event Fields JSONValue Schema) : bool :=
  match e with
  | EvRun _ _ => true
  | _ => false
  end.

(** The events by which the configuration's raw bytes are obtained and
    decoded. *)
Definition isRawSource (e : @Event Fields JSONValue Schema) : bool :=
  match e with
  | EvLastSource | EvReadFile _ | EvJSONUnmarshal _ => true
  | _ => false
  end.

(** The events by which a schema is loaded, parsed or compiled. *)
Definition isSchemaLoad (e : @Event Fields JSONValue Schema) : bool :=
  match e with
  | EvCompile _ _ | EvUnmarshalJSON _ | EvGet _ => true
  | _ => false
  end.

(** The stages of the pipeline (specification, 4.5 and 7), with the check
    of the configuration path in front. *)
Inductive Stage :=
| StPath | StParse | StObtainRaw | StParseJSON | StResolve
| StLoad | StCompile | StValidate | StDump | StSimulate.

Definition rank (st : Stage) : nat :=
  match st with
  | StPath => 0 | StParse => 1 | StObtainRaw => 2 | StParseJSON => 3
  | StResolve => 4 | StLoad => 5 | StCompile => 6 | StValidate => 7
  | StDump => 8 | StSimulate => 9
  end%nat.

(** The stage that an outside call belongs to.  Prints and the calls that
    set up the simulation belong to none.  A schema location is loaded by
    the compiler, inside its [Compile] call. *)
Definition stageOf (e : @Event Fields JSONValue Schema) : option Stage :=
  match e with
  | EvParse _ => Some StParse
  | EvLastSource | EvReadFile _ => Some StObtainRaw
  | EvJSONUnmarshal _ => Some StParseJSON
  | EvUnmarshalJSON _ => Some StLoad
  | EvCompile _ _ => Some StCompile
  | EvValidate _ _ => Some StValidate
  | EvDump _ _ _ _ => Some StDump
  | EvRun _ _ => Some StSimulate
  | _ => None
  end.

Fixpoint stagesOf (l : list (@Event Fields JSONValue Schema)) : list Stage :=
  match l with
  | [] => []
  | e :: l' =>
      match stageOf e with
      | Some st => st :: stagesOf l'
      | None => stagesOf l'
      end
  end.

(** Specification, 3: the schema source. *)
Inductive SchemaSource :=
| CustomLocation (location : string)
| OnlineDefault (url : string)
| EmbeddedDefault (text : string).

(** Specification, 3 and 4.1: the resolution order.  [None] stands for the
    failure [ConflictingOptions]. *)
Definition resolveSource (customSchemaLocation : string) (forceOnline : bool)
    (embedded : string) (version : string) : option SchemaSource :=
  let hasCustom := negb (String.eqb customSchemaLocation "") in
  let hasEmbeddedDefault := negb (String.eqb embedded "") in
  if hasCustom && forceOnline then None
  else if forceOnline || negb hasEmbeddedDefault then
    Some (OnlineDefault ("https://www.krakend.io/schema/v" +:+ getVersionMinor version
                         +:+ "/krakend.json"))
  else if hasCustom then Some (CustomLocation customSchemaLocation)
  else Some (EmbeddedDefault embedded).

Definition isOk {A} (r : result A) : bool :=
  match r with
  | Ok _ => true
  | Err _ => false
  end.

Definition isNone {A} (o : option A) : bool :=
  match o with
  | None => true
  | Some _ => false
  end.

(** Specification, 4.5: stages are attempted in order up to and including
    the first one that fails. *)
Fixpoint attempted (l : list (Stage * bool)) : list Stage :=
  match l with
  | [] => []
  | (st, ok) :: l' => st :: (if ok then attempted l' else [])
  end.

Section Pipeline.

Variable env : @Env Fields JSONValue Schema.
Variable g : Globals.
Variable s : State.

(** What each stage of the specification yields on the given inputs; a
    stage whose input is missing yields a failure. *)
Definition specParse : result (@ServiceConfig Fields) := parser_Parse env (cfgFile g).

Definition specRaw : result string :=
  match parser_LastSource env with
  | Some src => src
  | None => os_ReadFile env (cfgFile g)
  end.

Definition specJSON : result JSONValue :=
  match specRaw with
  | Ok data => json_Unmarshal env data
  | Err e => Err e
  end.

Definition specSource : option SchemaSource :=
  resolveSource (schemaPath s) (schemaFetchOnline g) (rawEmbedSchema g) (KrakendVersion g).

(** The compiler and the name to compile: for a location, a compiler with
    the loader table (it loads the location when it compiles); for the
    embedded text, a compiler holding the parsed text as a resource. *)
Definition specLoad : result (@Compiler JSONValue * string) :=
  match specSource with
  | Some (CustomLocation l) => Ok (UseLoader NewCompiler loader, l)
  | Some (OnlineDefault l) => Ok (UseLoader NewCompiler loader, l)
  | Some (EmbeddedDefault text) =>
      match jsonschema_UnmarshalJSON env text with
      | Ok doc => Ok (AddResource NewCompiler "schema.json" doc, "schema.json")
      | Err e => Err e
      end
  | None => Err "ConflictingOptions"
  end.

Definition specCompile : result Schema :=
  match specLoad with
  | Ok (c, name) => jsonschema_Compile env c name
  | Err e => Err e
  end.

Definition specValidate : bool :=
  match specCompile, specJSON with
  | Ok sch, Ok raw => isNone (Schema_Validate env sch raw)
  | _, _ => false
  end.

Definition specDump : bool :=
  match specParse with
  | Ok v => isNone (dumper_Dump env (checkDumpPrefix g) (debug g) (IsTTY g) v)
  | Err _ => false
  end.

(** The configuration of the simulation: the parsed one with the two
    overrides. *)
Definition simulated (v : @ServiceConfig Fields) : @ServiceConfig Fields :=
  {| Debug := Debug v || (0 <? debug g);
     Port := (if port g =? 0 then Port v else port g);
     others := others v |}.

Definition specSimulate : bool :=
  match specParse with
  | Ok v => isNone (fault (router_Run env (simulated v)))
  | Err _ => false
  end.

(** The stages that the flags ask for, in the order of the specification,
    each with whether it succeeds: those of linting, those after linting,
    and all of them. *)
Definition requestedLint : list (Stage * bool) :=
  if schemaValidation g
  then [(StObtainRaw, isOk specRaw); (StParseJSON, isOk specJSON);
        (StResolve, negb (isNone specSource)); (StLoad, isOk specLoad);
        (StCompile, isOk specCompile); (StValidate, specValidate)]
  else [].

Definition requestedAfterLint : list (Stage * bool) :=
  (if 0 <? debug g then [(StDump, specDump)] else [])
  ++ (if checkGinRoutes g then [(StSimulate, specSimulate)] else []).

Definition requested : list (Stage * bool) :=
  [(StPath, negb (String.eqb (cfgFile g) "")); (StParse, isOk specParse)]
  ++ requestedLint ++ requestedAfterLint.

(** The stages that leave a call in the log: the path check and the
    resolution are decisions, and loading is a call of its own only for the
    embedded text. *)
Definition logged (st : Stage) : bool :=
  match st with
  | StPath | StResolve => false
  | StLoad =>
      match specSource with
      | Some (EmbeddedDefault _) => true
      | _ => false
      end
  | _ => true
  end.

(** What [checkFunc] does after the linting block, for the parsed [v]. *)
Definition afterLint (v : @ServiceConfig Fields) : @Act Fields JSONValue Schema unit :=
  bind (checkFunc_dump env g v)
       (fun _ => bind (checkFunc_routes env g v) (fun _ => checkFunc_report g)).

(** The line that confirms success. *)
Definition confirmation : string :=
  if IsTTY g
  then Sprintf ("%sSyntax OK!%s" +:+ nl) [AStr (ColorGreen g); AStr (ColorReset g)]
  else "Syntax OK!" +:+ nl.

End Pipeline.

End Observations.

(** ** Sample inputs *)

Module Sample.

(** A configuration; the other fields are its endpoint patterns. *)
Definition cfg : @ServiceConfig (list string) :=
  {| Debug := false; Port := 8080; others := ["/users/:id"; "/orders"] |}.

(** Collaborators that all succeed, but for what the three arguments say:
    the parser's [LastSource] capability, what [Run] does, and the status
    that the HTTP server answers with. *)
Definition env (last : option (result string)) (run : RunOutcome) (status : Z)
    : @Env (list string) string string :=
  {| parser_Parse := fun _ => Ok cfg;
     parser_LastSource := last;
     os_ReadFile := fun _ => Ok "{}";
     json_Unmarshal := fun data => Ok data;
     jsonschema_UnmarshalJSON := fun text => Ok text;
     jsonschema_Compile := fun _ name => Ok name;
     Schema_Validate := fun _ _ => None;
     dumper_Dump := fun _ _ _ _ => None;
     router_Run := fun _ => run;
     client_Get := fun _ => Ok {| StatusCode := status; Body := "{}" |} |}.

Definition runs : RunOutcome := {| elapsed := time_Second; fault := None |}.
Definition conflict : RunOutcome :=
  {| elapsed := 1000; fault := Some (PString "wildcard route ':id' conflicts with existing children") |}.
Definition bindError : RunOutcome :=
  {| elapsed := 1000;
     fault := Some (PError "*net.OpError" "listen tcp :8080: bind: address already in use") |}.

Definition flags (lint online : bool) (embedded : string) (routes : bool) : Globals :=
  {| cfgFile := "krakend.json"; schemaValidation := lint; schemaFetchOnline := online;
     rawEmbedSchema := embedded; debug := 0; port := 9090; checkGinRoutes := routes;
     IsTTY := false; checkDumpPrefix := "\t"; KrakendVersion := "2.7.1-rc1";
     ColorRed := ""; ColorGreen := ""; ColorReset := "" |}.

(** Linting with the embedded schema, a dump, and the route check. *)
Definition everything : Globals :=
  {| cfgFile := "krakend.json"; schemaValidation := true; schemaFetchOnline := false;
     rawEmbedSchema := "{}"; debug := 2; port := 0; checkGinRoutes := true;
     IsTTY := false; checkDumpPrefix := "\t"; KrakendVersion := "2.7.1-rc1";
     ColorRed := ""; ColorGreen := ""; ColorReset := "" |}.

Definition start (path : string) : State :=
  {| schemaPath := path; clock := 0; contexts := [] |}.

End Sample.

(** ** The rest of check.go, and more vocabulary *)

(** [func NewCheckCmd(rawSchema string) Command]: the assignment
    [rawEmbedSchema = rawSchema], as a change of the package variables.  The
    [Command] that is returned is the package's [CheckCommand], declared
    outside check.go. *)
Definition NewCheckCmd (rawSchema : string) (g : Globals) : Globals :=
  {| cfgFile := cfgFile g;
     schemaValidation := schemaValidation g;
     schemaFetchOnline := schemaFetchOnline g;
     rawEmbedSchema := rawSchema;
     debug := debug g;
     port := port g;
     checkGinRoutes := checkGinRoutes g;
     IsTTY := IsTTY g;
     checkDumpPrefix := checkDumpPrefix g;
     KrakendVersion := KrakendVersion g;
     ColorRed := ColorRed g;
     ColorGreen := ColorGreen g;
     ColorReset := ColorReset g |}.

(** The same package variables with other colour codes. *)
Definition withColours (g : Globals) (red green reset : string) : Globals :=
  {| cfgFile := cfgFile g;
     schemaValidation := schemaValidation g;
     schemaFetchOnline := schemaFetchOnline g;
     rawEmbedSchema := rawEmbedSchema g;
     debug := debug g;
     port := port g;
     checkGinRoutes := checkGinRoutes g;
     IsTTY := IsTTY g;
     checkDumpPrefix := checkDumpPrefix g;
     KrakendVersion := KrakendVersion g;
     ColorRed := red;
     ColorGreen := green;
     ColorReset := reset |}.

Section MoreObservations.

Context {Fields JSONValue Schema : Type}.

(** The events of the route simulation. *)
Definition isRouter (e : @Event Fields JSONValue Schema) : bool :=
  match e with
  | EvSetMode _ | EvWithTimeout _ | EvRun _ _ | EvCancel _ => true
  | _ => false
  end.

Definition isDump (e : @Event Fields JSONValue Schema) : bool :=
  match e with
  | EvDump _ _ _ _ => true
  | _ => false
  end.

Definition isGet (e : @Event Fields JSONValue Schema) : bool :=
  match e with
  | EvGet _ => true
  | _ => false
  end.

Definition isBodyClose (e : @Event Fields JSONValue Schema) : bool :=
  match e with
  | EvBodyClose _ => true
  | _ => false
  end.

Definition isBodyParse (e : @Event Fields JSONValue Schema) : bool :=
  match e with
  | EvUnmarshalJSON _ => true
  | _ => false
  end.

End MoreObservations.

(** ** More sample inputs *)

Module Scenario.

(** A network without name resolution. *)
Definition offline : @Env (list string) string string :=
  {| parser_Parse := fun _ => Ok Sample.cfg;
     parser_LastSource := None;
     os_ReadFile := fun _ => Ok "{}";
     json_Unmarshal := fun data => Ok data;
     jsonschema_UnmarshalJSON := fun text => Ok text;
     jsonschema_Compile := fun _ _ => Err "dial tcp: lookup www.krakend.io: no such host";
     Schema_Validate := fun _ _ => None;
     dumper_Dump := fun _ _ _ _ => None;
     router_Run := fun _ => Sample.runs;
     client_Get := fun _ => Err "dial tcp: lookup www.krakend.io: no such host" |}.

(** A parser that rejects the file. *)
Definition rejecting : @Env (list string) string string :=
  {| parser_Parse := fun _ => Err "invalid character '}' looking for beginning of value";
     parser_LastSource := None;
     os_ReadFile := fun _ => Ok "{}";
     json_Unmarshal := fun data => Ok data;
     jsonschema_UnmarshalJSON := fun text => Ok text;
     jsonschema_Compile := fun _ name => Ok name;
     Schema_Validate := fun _ _ => None;
     dumper_Dump := fun _ _ _ _ => None;
     router_Run := fun _ => Sample.runs;
     client_Get := fun _ => Ok {| StatusCode := 200; Body := "{}" |} |}.

(** A routing layer that panics, with a string, after the deadline. *)
Definition lateConflict : RunOutcome :=
  {| elapsed := 2 * time_Second; fault := Some (PString "listen: address already in use") |}.

(** No [--config]. *)
Definition noPath : Globals :=
  {| cfgFile := ""; schemaValidation := true; schemaFetchOnline := false;
     rawEmbedSchema := "{}"; debug := 1; port := 0; checkGinRoutes := true;
     IsTTY := false; checkDumpPrefix := ""; KrakendVersion := "2.7.1";
     ColorRed := ""; ColorGreen := ""; ColorReset := "" |}.

(** On a terminal, with colours, dumping at level 3. *)
Definition coloured : Globals :=
  {| cfgFile := "krakend.json"; schemaValidation := false; schemaFetchOnline := false;
     rawEmbedSchema := "{}"; debug := 3; port := 0; checkGinRoutes := false;
     IsTTY := true; checkDumpPrefix := "> "; KrakendVersion := "2.7.1";
     ColorRed := "<red>"; ColorGreen := "<green>"; ColorReset := "<reset>" |}.

End Scenario.

(** * Properties *)

(** ** Text *)

Lemma append_empty_r (s : string) : s +:+ "" = s.
Proof.
  induction s as [|a s IH]; [reflexivity|].
  change (String a (s +:+ "") = String a s). now rewrite IH.
Qed.

Lemma Split_not_nil (s : string) (c : ascii) : Split s c <> [].
Proof.
  destruct s as [|a s]; simpl; [discriminate|].
  destruct (Ascii.eqb a c); [discriminate|].
  destruct (Split s c); discriminate.
Qed.

(** Joining the components with the separator gives the input back. *)
Lemma Join_Split (s : string) (c : ascii) : Join (Split s c) (String c "") = s.
Proof.
  induction s as [|a s IH]; simpl; [reflexivity|].
  destruct (Ascii.eqb_spec a c) as [->|_].
  - pose proof (Split_not_nil s c) as Hne.
    destruct (Split s c) as [|h t]; [contradiction|].
    simpl in *. now rewrite IH.
  - destruct (Split s c) as [|h t] eqn:E; [now destruct (Split_not_nil s c)|].
    destruct t as [|h' t]; simpl in *; now rewrite <- IH.
Qed.

(** No component contains the separator. *)
Lemma Split_components (s : string) (c : ascii) :
  Forall (fun comp => occurs c comp = 0%nat) (Split s c).
Proof.
  induction s as [|a s IH]; simpl.
  - now constructor.
  - destruct (Ascii.eqb a c) eqn:E.
    + now constructor.
    + destruct (Split s c) as [|h t]; inversion IH; subst; constructor; simpl;
        rewrite ?E; auto.
Qed.

(** There is one component more than there are separators. *)
Lemma Split_length (s : string) (c : ascii) :
  length (Split s c) = S (occurs c s).
Proof.
  induction s as [|a s IH]; simpl; [reflexivity|].
  destruct (Ascii.eqb a c); simpl.
  - now rewrite IH.
  - destruct (Split s c); simpl in *; lia.
Qed.

Lemma Sprintf_onlineSchema (v : string) :
  Sprintf onlineSchema [AStr v] = "https://www.krakend.io/schema/v" +:+ v +:+ "/krakend.json".
Proof. reflexivity. Qed.

Lemma Sprintf_two (a b : string) :
  Sprintf "%s.%s" [AStr a; AStr b] = a +:+ "." +:+ b.
Proof. simpl. now rewrite append_empty_r. Qed.

Lemma Sprintf_status (url : string) (code : Z) :
  Sprintf "%s returned status code %d" [AStr url; AInt code]
  = url +:+ " returned status code " +:+ itoa code.
Proof. simpl. now rewrite append_empty_r. Qed.

(** ** getVersionMinor *)

(** C5.  For every version string [ver], [getVersionMinor] works on the
    components that splitting [ver] at dots gives: joined by dots they are
    [ver] again, none contains a dot, and there is one more of them than
    there are dots.  With fewer than two components the result is [ver]
    itself; otherwise it is the first component, a dot, and the second
    component.  The online schema URL is the fixed template with that
    result in the place of its version segment. *)
Theorem getVersionMinor_components (ver : string) :
  let comps := Split ver dot in
  Join comps "." = ver /\
  Forall (fun c => occurs dot c = 0%nat) comps /\
  length comps = S (occurs dot ver) /\
  ((length comps < 2)%nat -> getVersionMinor ver = ver) /\
  (forall c0 c1 rest, comps = c0 :: c1 :: rest ->
     getVersionMinor ver = c0 +:+ "." +:+ c1) /\
  Sprintf onlineSchema [AStr (getVersionMinor ver)]
  = "https://www.krakend.io/schema/v" +:+ getVersionMinor ver +:+ "/krakend.json".
Proof.
  intros comps. subst comps.
  split; [apply Join_Split|].
  split; [apply Split_components|].
  split; [apply Split_length|].
  unfold getVersionMinor.
  split; [|split].
  - intros Hlt.
    destruct (Z.ltb_spec (Z.of_nat (length (Split ver dot))) 2); [reflexivity | lia].
  - intros c0 c1 rest E. rewrite E. simpl length.
    destruct (Z.ltb_spec (Z.of_nat (S (S (length rest)))) 2); [lia|].
    cbn [nth]. apply Sprintf_two.
  - apply Sprintf_onlineSchema.
Qed.

Lemma getVersionMinor_components_witness :
  getVersionMinor "2.7.1-rc1" = "2.7" /\ getVersionMinor "devel" = "devel".
Proof.
  pose proof (getVersionMinor_components "2.7.1-rc1") as (_ & _ & _ & _ & H2 & _).
  pose proof (getVersionMinor_components "devel") as (_ & _ & _ & H1 & _).
  split.
  - exact (H2 "2" "7" ["1-rc1"] eq_refl).
  - apply H1. simpl. lia.
Defined.

(** ** RunRouterFunc *)

Section RouterProperties.

Context {Fields JSONValue Schema : Type}.
Variable env : @Env Fields JSONValue Schema.
Variable g : Globals.

Ltac unfold_router :=
  cbv [RunRouterFunc deferRecover recoverAsError bind ret call panic
       Router_Run context_WithTimeout cancel outcome final events].

(** One call of [RunRouterFunc], path by path. *)
Lemma RunRouterFunc_eval (cfg : ServiceConfig) (s : State) :
  let h := length (contexts s) in
  let cfg' := {| Debug := Debug cfg || (0 <? debug g);
                 Port := (if port g =? 0 then Port cfg else port g);
                 others := others cfg |} in
  let o := router_Run env cfg' in
  let made := contexts s ++ [{| deadline := clock s + time_Second; cancelled := false |}] in
  RunRouterFunc env g cfg s =
  match fault o with
  | None =>
      {| outcome := Returns None;
         final := {| schemaPath := schemaPath s; clock := clock s + elapsed o;
                     contexts := alter (fun c => {| deadline := deadline c; cancelled := true |})
                                       h made |};
         events := [EvSetMode "release"; EvWithTimeout h; EvRun h cfg'; EvCancel h] |}
  | Some v =>
      {| outcome := match assertString v with
                    | inl m => Returns (Some m)
                    | inr p => Panics p
                    end;
         final := {| schemaPath := schemaPath s; clock := clock s + elapsed o;
                     contexts := made |};
         events := [EvSetMode "release"; EvWithTimeout h; EvRun h cfg'] |}
  end.
Proof.
  unfold_router.
  destruct (port g =? 0); cbn [negb Debug Port others];
    match goal with
    | |- context [fault ?o] => destruct (fault o) as [v|]
    end;
    try (destruct (assertString v)); reflexivity.
Qed.

(** Which [Run] event a call of [RunRouterFunc] logs. *)
Lemma RunRouterFunc_Run_event (cfg : ServiceConfig) (s : State) ctx cfg' :
  In (EvRun ctx cfg') (events (RunRouterFunc env g cfg s)) ->
  ctx = length (contexts s) /\
  cfg' = {| Debug := Debug cfg || (0 <? debug g);
            Port := (if port g =? 0 then Port cfg else port g);
            others := others cfg |}.
Proof.
  rewrite RunRouterFunc_eval.
  match goal with
  | |- context [fault ?o] => destruct (fault o) as [v|]
  end; cbn [events In]; intros H;
    repeat (destruct H as [H|H]; try discriminate; try contradiction);
    inversion H; auto.
Qed.

(** C1.  The specification has every panic of the routing layer end at
    [RunRouterFunc] as an error result, whatever the type of the panic value.
    The code does so for strings only.  It recovers the panic and then
    asserts that the value is a string: when [Run] panics with a value that is
    not a string, the deferred closure panics in turn with a type assertion
    error, no error is returned, and that panic leaves [RunRouterFunc]. *)
Theorem RunRouterFunc_nonstring_panic_escapes (cfg : ServiceConfig) (s : State)
    ctx cfg' (v : PanicValue) :
  In (EvRun ctx cfg') (events (RunRouterFunc env g cfg s)) ->
  fault (router_Run env cfg') = Some v ->
  (forall m, v <> PString m) ->
  outcome (RunRouterFunc env g cfg s)
  = Panics (PError "*runtime.TypeAssertionError"
              ("interface conversion: interface {} is " +:+ dynType v +:+ ", not string")).
Proof.
  intros Hin Hfault Hns.
  apply RunRouterFunc_Run_event in Hin as [_ ->].
  rewrite RunRouterFunc_eval. cbv zeta. rewrite Hfault. cbn [outcome].
  destruct v as [m| |]; [now destruct (Hns m) | reflexivity | reflexivity].
Qed.

(** C2.  The specification has the context of the simulation cancelled
    before [RunRouterFunc] returns, on every path.  In the code [cancel()] is
    a plain call after [Run], not a deferred one: when [Run] panics with a
    string before the deadline, [RunRouterFunc] returns the error, [cancel]
    has not been called, and the context is not done at that moment. *)
Theorem RunRouterFunc_panic_skips_cancel (cfg : ServiceConfig) (s : State)
    ctx cfg' (m : string) :
  In (EvRun ctx cfg') (events (RunRouterFunc env g cfg s)) ->
  fault (router_Run env cfg') = Some (PString m) ->
  0 <= elapsed (router_Run env cfg') < time_Second ->
  outcome (RunRouterFunc env g cfg s) = Returns (Some m) /\
  ~ In (EvCancel ctx) (events (RunRouterFunc env g cfg s)) /\
  ctxDone (final (RunRouterFunc env g cfg s)) ctx = false.
Proof.
  intros Hin Hfault Hel.
  apply RunRouterFunc_Run_event in Hin as [-> ->].
  rewrite RunRouterFunc_eval. cbv zeta. rewrite Hfault.
  cbn [outcome events final assertString].
  split; [reflexivity|]. split.
  - cbn [In]. intros H. repeat (destruct H as [H|H]; try discriminate). exact H.
  - unfold ctxDone. cbn [contexts clock].
    rewrite list_lookup_middle by reflexivity.
    cbn [cancelled deadline orb].
    apply Z.leb_gt. lia.
Qed.

(** On the path where [Run] returns, the context is cancelled. *)
Lemma RunRouterFunc_return_cancels (cfg : ServiceConfig) (s : State) ctx cfg' :
  In (EvRun ctx cfg') (events (RunRouterFunc env g cfg s)) ->
  fault (router_Run env cfg') = None ->
  In (EvCancel ctx) (events (RunRouterFunc env g cfg s)) /\
  ctxDone (final (RunRouterFunc env g cfg s)) ctx = true.
Proof.
  intros Hin Hfault.
  apply RunRouterFunc_Run_event in Hin as [-> ->].
  rewrite RunRouterFunc_eval. cbv zeta. rewrite Hfault.
  cbn [events final]. split.
  - cbn [In]. auto.
  - unfold ctxDone. cbn [contexts clock].
    rewrite list_lookup_alter_eq, list_lookup_middle by reflexivity.
    reflexivity.
Qed.

(** C10.  [RunRouterFunc] calls [Run] once.  When that call returns
    (no panic), [RunRouterFunc] returns nil; and whenever [RunRouterFunc]
    returns an error, [Run] has panicked with a string and the error is
    that string: [Run] hands back no error value of its own. *)
Theorem RunRouterFunc_error_only_from_panic (cfg : ServiceConfig) (s : State) :
  (exists ctx cfg',
     List.filter isRun (events (RunRouterFunc env g cfg s)) = [EvRun ctx cfg']) /\
  (forall ctx cfg',
     In (EvRun ctx cfg') (events (RunRouterFunc env g cfg s)) ->
     (fault (router_Run env cfg') = None ->
      outcome (RunRouterFunc env g cfg s) = Returns None) /\
     (forall e, outcome (RunRouterFunc env g cfg s) = Returns (Some e) ->
      fault (router_Run env cfg') = Some (PString e))).
Proof.
  split.
  - rewrite RunRouterFunc_eval. cbv zeta.
    match goal with
    | |- context [fault ?o] => destruct (fault o)
    end; eexists; eexists; reflexivity.
  - intros ctx cfg' Hin.
    apply RunRouterFunc_Run_event in Hin as [_ ->].
    rewrite RunRouterFunc_eval. cbv zeta.
    match goal with
    | |- context [fault ?o] => destruct (fault o) as [v|]
    end; cbn [outcome].
    + split; [discriminate|].
      destruct v; cbn [assertString]; intros e He; inversion He; reflexivity.
    + split; [reflexivity | discriminate].
Qed.

End RouterProperties.

Lemma RunRouterFunc_nonstring_panic_escapes_witness :
  outcome (RunRouterFunc (Sample.env None Sample.bindError 200)
             (Sample.flags false false "" true) Sample.cfg (Sample.start ""))
  = Panics (PError "*runtime.TypeAssertionError"
              "interface conversion: interface {} is *net.OpError, not string").
Proof.
  apply (RunRouterFunc_nonstring_panic_escapes
           (Sample.env None Sample.bindError 200) (Sample.flags false false "" true)
           Sample.cfg (Sample.start "") 0%nat
           {| Debug := false; Port := 9090; others := others Sample.cfg |}
           (PError "*net.OpError" "listen tcp :8080: bind: address already in use")).
  - simpl. auto.
  - reflexivity.
  - discriminate.
Defined.

Lemma RunRouterFunc_panic_skips_cancel_witness :
  outcome (RunRouterFunc (Sample.env None Sample.conflict 200)
             (Sample.flags false false "" true) Sample.cfg (Sample.start ""))
  = Returns (Some "wildcard route ':id' conflicts with existing children") /\
  ~ In (EvCancel 0%nat)
       (events (RunRouterFunc (Sample.env None Sample.conflict 200)
                  (Sample.flags false false "" true) Sample.cfg (Sample.start ""))) /\
  ctxDone (final (RunRouterFunc (Sample.env None Sample.conflict 200)
                    (Sample.flags false false "" true) Sample.cfg (Sample.start "")))
          0%nat = false.
Proof.
  apply (RunRouterFunc_panic_skips_cancel
           (Sample.env None Sample.conflict 200) (Sample.flags false false "" true)
           Sample.cfg (Sample.start "") 0%nat
           {| Debug := false; Port := 9090; others := others Sample.cfg |}).
  - simpl. auto.
  - reflexivity.
  - simpl. unfold time_Second. lia.
Defined.

Lemma RunRouterFunc_error_only_from_panic_witness :
  outcome (RunRouterFunc (Sample.env None Sample.runs 200)
             (Sample.flags false false "" true) Sample.cfg (Sample.start ""))
  = Returns None.
Proof.
  apply (proj2 (RunRouterFunc_error_only_from_panic
                  (Sample.env None Sample.runs 200) (Sample.flags false false "" true)
                  Sample.cfg (Sample.start "")) 0%nat
               {| Debug := false; Port := 9090; others := others Sample.cfg |}).
  - simpl. auto.
  - reflexivity.
Defined.

(** ** HTTPURLLoader.Load *)

Section LoaderProperties.

Context {Fields JSONValue Schema : Type}.
Variable env : @Env Fields JSONValue Schema.
Variable g : Globals.

Ltac unfold_load :=
  cbv [HTTPURLLoader_Load defer_ bind ret call outcome final events].

(** A transport error is handed back as it is; there is no response. *)
Lemma Load_transport_error (url : string) (s : State) (e : error) :
  client_Get env url = Err e ->
  outcome (HTTPURLLoader_Load env url s) = Returns (Err e) /\
  events (HTTPURLLoader_Load env url s) = [EvGet url].
Proof. unfold_load. intros ->. cbn [app]. auto. Qed.

(** C6.  The loader serves the [http] and the [https] scheme.  When
    [Get] yields a response whose status is not 200, [Load] returns an error
    made of the URL and the status code, the body is never parsed, and the
    body is closed.  When the status is 200, [Load] returns what parsing the
    body gives, error or not, and the body is closed after the parse.  In
    both cases closing the body is the last thing [Load] does, and it is
    done once. *)
Theorem Load_status_and_close (url : string) (s : State) (resp : Response) :
  client_Get env url = Ok resp ->
  loaderFor loader "http" = Some httpLoader /\
  loaderFor loader "https" = Some httpLoader /\
  (StatusCode resp <> http_StatusOK ->
   outcome (HTTPURLLoader_Load env url s)
   = Returns (Err (url +:+ " returned status code " +:+ itoa (StatusCode resp))) /\
   events (HTTPURLLoader_Load env url s) = [EvGet url; EvBodyClose url]) /\
  (StatusCode resp = http_StatusOK ->
   outcome (HTTPURLLoader_Load env url s)
   = Returns (jsonschema_UnmarshalJSON env (Body resp)) /\
   events (HTTPURLLoader_Load env url s)
   = [EvGet url; EvUnmarshalJSON (Body resp); EvBodyClose url]).
Proof.
  intros Hget. split; [reflexivity|]. split; [reflexivity|].
  unfold_load. rewrite Hget. cbv beta iota.
  destruct (Z.eqb_spec (StatusCode resp) http_StatusOK) as [E|E]; cbn [negb app].
  - split; [contradiction | auto].
  - split; [|contradiction]. intros _. rewrite Sprintf_status. auto.
Qed.

End LoaderProperties.

Lemma Load_status_and_close_witness :
  (outcome (HTTPURLLoader_Load (Sample.env None Sample.runs 404)
              "https://www.krakend.io/schema/v2.7/krakend.json" (Sample.start ""))
   = Returns (Err "https://www.krakend.io/schema/v2.7/krakend.json returned status code 404") /\
   events (HTTPURLLoader_Load (Sample.env None Sample.runs 404)
             "https://www.krakend.io/schema/v2.7/krakend.json" (Sample.start ""))
   = [EvGet "https://www.krakend.io/schema/v2.7/krakend.json";
      EvBodyClose "https://www.krakend.io/schema/v2.7/krakend.json"]) /\
  (outcome (HTTPURLLoader_Load (Sample.env None Sample.runs 200)
              "http://localhost/krakend.json" (Sample.start ""))
   = Returns (Ok "{}") /\
   events (HTTPURLLoader_Load (Sample.env None Sample.runs 200)
             "http://localhost/krakend.json" (Sample.start ""))
   = [EvGet "http://localhost/krakend.json"; EvUnmarshalJSON "{}";
      EvBodyClose "http://localhost/krakend.json"]).
Proof.
  split.
  - apply (Load_status_and_close (Sample.env None Sample.runs 404)
             "https://www.krakend.io/schema/v2.7/krakend.json" (Sample.start "")
             {| StatusCode := 404; Body := "{}" |} eq_refl).
    simpl. unfold http_StatusOK. lia.
  - apply (Load_status_and_close (Sample.env None Sample.runs 200)
             "http://localhost/krakend.json" (Sample.start "")
             {| StatusCode := 200; Body := "{}" |} eq_refl).
    reflexivity.
Defined.

(** ** checkFunc *)

Section PipelineProperties.

Context {Fields JSONValue Schema : Type}.
Variable env : @Env Fields JSONValue Schema.
Variable g : Globals.

Local Abbreviation Act := (@Act Fields JSONValue Schema).
Local Abbreviation Run := (@Run Fields JSONValue Schema).

(** *** The monad, one step at a time *)

Lemma bind_ret {A B} (a : A) (k : A -> Act B) (s : State) :
  bind (ret a) k s = k a s.
Proof. unfold bind, ret; cbn. now destruct (k a s). Qed.

Lemma bind_call {A B} (e : Event) (a : A) (k : A -> Act B) (s : State) :
  bind (call e a) k s = pre [e] (k a s).
Proof. reflexivity. Qed.

Lemma bind_exit {A B} (c : Z) (k : A -> Act B) (s : State) :
  bind (os_Exit c) k s = {| outcome := Exits c; final := s; events := [] |}.
Proof. reflexivity. Qed.

Lemma bind_get {B} (k : string -> Act B) (s : State) :
  bind get_schemaPath k s = k (schemaPath s) s.
Proof. unfold bind, get_schemaPath; cbn. now destruct (k _ s). Qed.

Lemma bind_get_set {B} (k : string -> Act B) (p : string) (c : Z) (l : list Context) :
  bind get_schemaPath k {| schemaPath := p; clock := c; contexts := l |}
  = k p {| schemaPath := p; clock := c; contexts := l |}.
Proof. apply bind_get. Qed.

Lemma bind_set {B} (p : string) (k : unit -> Act B) (s : State) :
  bind (set_schemaPath p) k s
  = k tt {| schemaPath := p; clock := clock s; contexts := contexts s |}.
Proof. unfold bind, set_schemaPath; cbn. now destruct (k _ _). Qed.

Lemma bind_assoc {A B C} (m : Act A) (k1 : A -> Act B) (k2 : B -> Act C) (s : State) :
  bind (bind m k1) k2 s = bind m (fun a => bind (k1 a) k2) s.
Proof.
  unfold bind. destruct (m s) as [[a|c|v] f ev]; cbn; try reflexivity.
  destruct (k1 a f) as [[b|c|v] f' ev']; cbn; try reflexivity.
  now rewrite app_assoc.
Qed.

(** [RunRouterFunc] as a step of a longer run. *)
Lemma bind_RunRouterFunc {B} (cfg : ServiceConfig) (k : option error -> Act B) (s : State) :
  let h := length (contexts s) in
  let o := router_Run env (simulated g cfg) in
  let made := contexts s ++ [{| deadline := clock s + time_Second; cancelled := false |}] in
  bind (RunRouterFunc env g cfg) k s =
  match fault o with
  | None =>
      pre [EvSetMode "release"; EvWithTimeout h; EvRun h (simulated g cfg); EvCancel h]
        (k None {| schemaPath := schemaPath s; clock := clock s + elapsed o;
                   contexts := alter (fun c => {| deadline := deadline c; cancelled := true |})
                                     h made |})
  | Some (PString m) =>
      pre [EvSetMode "release"; EvWithTimeout h; EvRun h (simulated g cfg)]
        (k (Some m) {| schemaPath := schemaPath s; clock := clock s + elapsed o;
                       contexts := made |})
  | Some v =>
      {| outcome := Panics (PError "*runtime.TypeAssertionError"
              ("interface conversion: interface {} is " +:+ dynType v +:+ ", not string"));
         final := {| schemaPath := schemaPath s; clock := clock s + elapsed o;
                     contexts := made |};
         events := [EvSetMode "release"; EvWithTimeout h; EvRun h (simulated g cfg)] |}
  end.
Proof.
  cbv zeta. unfold bind at 1. rewrite RunRouterFunc_eval. cbv zeta.
  fold (simulated g cfg).
  destruct (fault (router_Run env (simulated g cfg))) as [[m|t m|t]|]; reflexivity.
Qed.

Lemma length_test (p : string) :
  (0 <? Z.of_nat (String.length p)) = negb (String.eqb p "").
Proof. destruct p; reflexivity. Qed.

Lemma online_location_not_empty (v : string) :
  String.eqb ("https://www.krakend.io/schema/v" +:+ v +:+ "/krakend.json") "" = false.
Proof. reflexivity. Qed.

Lemma eqb_empty_false (p : string) : p <> "" -> String.eqb p "" = false.
Proof. apply String.eqb_neq. Qed.

(** *** Running a part of [checkFunc] path by path *)

Ltac atom b :=
  lazymatch b with
  | andb ?x _ => atom x
  | orb ?x _ => atom x
  | negb ?x => atom x
  | _ => constr:(b)
  end.

Ltac case_on x :=
  let a := atom x in
  match goal with
  | H : a = _ |- _ => rewrite H
  | _ => destruct a eqn:?
  end; cbn [andb orb negb].

Ltac exec_step :=
  lazymatch goal with
  | |- context [0 <? Z.of_nat (String.length ?p)] => rewrite (length_test p)
  | |- context [String.eqb ("https://www.krakend.io/schema/v" +:+ ?v +:+ "/krakend.json") ""] =>
      rewrite (online_location_not_empty v); cbn [andb orb negb]
  | |- context [bind (bind ?m ?k1) ?k2 ?s] => rewrite (bind_assoc m k1 k2 s)
  | |- context [bind (call ?e ?a) ?k ?s] => rewrite (bind_call e a k s)
  | |- context [bind (ret ?a) ?k ?s] => rewrite (bind_ret a k s)
  | |- context [bind (os_Exit ?c) ?k ?s] => rewrite (bind_exit c k s)
  | |- context [bind get_schemaPath ?k {| schemaPath := ?p; clock := ?c; contexts := ?l |}] =>
      rewrite (bind_get_set k p c l)
  | |- context [bind get_schemaPath ?k ?s] => rewrite (bind_get k s)
  | |- context [bind (set_schemaPath ?p) ?k ?s] => rewrite (bind_set p k s)
  | |- context [bind (RunRouterFunc env g ?cfg) ?k ?s] =>
      rewrite (bind_RunRouterFunc cfg k s); cbv zeta;
      match goal with
      | |- context [fault ?o] => destruct (fault o) as [[?|? ?|?]|] eqn:?
      end
  | |- context [bind (if ?b then _ else _) ?k ?s] => case_on b
  | |- context [bind (match ?x with _ => _ end) ?k ?s] => case_on x
  | |- context [(if ?b then _ else _) ?s] => case_on b
  | |- context [(match ?x with _ => _ end) ?s] => case_on x
  end; cbv beta iota.

Ltac use_equations :=
  repeat match goal with
         | H : ?a = _ |- context [?a] =>
             lazymatch a with
             | true => fail
             | false => fail
             | _ => rewrite H
             end
         end.

(** The run [t] is executed under a predicate that is kept closed
    meanwhile, so that each step rewrites one copy of the program; [open]
    unfolds the parts of the program that are to be run. *)
Ltac exec_with t open :=
  pattern t;
  lazymatch goal with
  | |- ?P _ =>
      let Q := fresh "Q" in
      set (Q := P);
      open; cbv beta;
      rewrite ?Sprintf_onlineSchema;
      repeat exec_step;
      repeat match goal with
        | |- context [bind (checkFunc_dump env g ?v) ?k ?s'] =>
            change (bind (checkFunc_dump env g v) k s') with (afterLint env g v s')
        end;
      subst Q; cbv beta;
      cbn [pre os_Exit call ret events outcome final app]
  end.

Ltac run_afterLint v s :=
  exec_with (afterLint env g v s)
    ltac:(cbv delta [afterLint checkFunc_dump checkFunc_routes checkFunc_report
                     Print Println Printf]).

Ltac run_checkFunc s :=
  exec_with (checkFunc env g s)
    ltac:(cbv delta [checkFunc checkFunc_lint Print Println Printf]).

Ltac exec_afterLint v s := run_afterLint v s; use_equations.
Ltac exec_checkFunc s := run_checkFunc s; use_equations.

Ltac dead :=
  solve [ discriminate
        | contradiction
        | match goal with
          | H : String.eqb ?p "" = true, N : ?p <> "" |- _ =>
              apply String.eqb_eq in H; contradiction
          | H : String.eqb ?p "" = false, E : ?p = "" |- _ =>
              rewrite E in H; discriminate
          end
        | congruence ].

(** *** After the linting block *)

(** After linting no schema is loaded, no raw bytes are obtained, and
    [schemaPath] is not assigned. *)
Lemma afterLint_no_schema (v : ServiceConfig) (s : State) :
  List.filter isSchemaLoad (events (afterLint env g v s)) = [].
Proof. exec_afterLint v s; reflexivity. Qed.

Lemma afterLint_no_raw (v : ServiceConfig) (s : State) :
  List.filter isRawSource (events (afterLint env g v s)) = [].
Proof. exec_afterLint v s; reflexivity. Qed.

Lemma afterLint_schemaPath (v : ServiceConfig) (s : State) :
  schemaPath (final (afterLint env g v s)) = schemaPath s.
Proof. exec_afterLint v s; reflexivity. Qed.

Ltac frame :=
  cbn [List.filter isRawSource isSchemaLoad];
  rewrite ?afterLint_no_schema, ?afterLint_no_raw, ?afterLint_schemaPath;
  cbn [schemaPath].

(** C8.  When the configuration path is given, parsing succeeds and
    linting is requested: if the parser has the [LastSource] capability, the
    raw bytes come from it and the file is not read; if it has not, the
    configuration file is read.  The bytes so obtained, and no others, are
    what is decoded as JSON. *)
Theorem checkFunc_raw_bytes (s : State) (v : ServiceConfig) :
  cfgFile g <> "" ->
  parser_Parse env (cfgFile g) = Ok v ->
  schemaValidation g = true ->
  List.filter isRawSource (events (checkFunc env g s)) =
  match parser_LastSource env with
  | Some (Ok data) => [EvLastSource; EvJSONUnmarshal data]
  | Some (Err _) => [EvLastSource]
  | None =>
      match os_ReadFile env (cfgFile g) with
      | Ok data => [EvReadFile (cfgFile g); EvJSONUnmarshal data]
      | Err _ => [EvReadFile (cfgFile g)]
      end
  end.
Proof.
  intros Hc Hp Hl. apply eqb_empty_false in Hc.
  exec_checkFunc s; frame; reflexivity.
Qed.

(** C3.  Let a schema location be given together with the online flag.
    Then, whatever the other inputs are, no schema is loaded, parsed or
    compiled in the run and [schemaPath] is left as it was; if linting is
    requested the run ends in [os.Exit(1)]; and when the run gets as far as
    the resolution (path given, parsing, raw bytes and JSON decoding all
    succeed), the last thing it does before exiting is to print the
    message that the two options exclude each other. *)
Theorem conflicting_options_stop (s : State) :
  schemaPath s <> "" ->
  schemaFetchOnline g = true ->
  List.filter isSchemaLoad (events (checkFunc env g s)) = [] /\
  schemaPath (final (checkFunc env g s)) = schemaPath s /\
  (schemaValidation g = true -> outcome (checkFunc env g s) = Exits 1) /\
  (forall v data raw,
     cfgFile g <> "" ->
     parser_Parse env (cfgFile g) = Ok v ->
     schemaValidation g = true ->
     specRaw env g = Ok data ->
     json_Unmarshal env data = Ok raw ->
     last (events (checkFunc env g s))
     = Some (EvPrint (errorMsg g "You cannot use both the --schema and --online options simultaneously. These arguments are mutually exclusive." +:+ nl))).
Proof.
  intros Hs Ho. apply eqb_empty_false in Hs.
  unfold specRaw.
  exec_checkFunc s; frame;
    (split; [reflexivity|]); (split; [reflexivity|]);
    (split; [intros; first [reflexivity | dead]|]);
    intros v' data' raw' H1 H2 H3 H4 H5;
    first [reflexivity | dead].
Qed.

(** C4.  Let the run get as far as the resolution (path given, parsing,
    linting requested, raw bytes and JSON decoding succeed) without the two
    options in conflict.  If the online flag is set or there is no embedded
    schema, the one schema call is a compilation, through the loader table,
    of the online URL made from the version -- also when a location was
    given; [schemaPath] then holds that URL.  Otherwise, if a location was
    given, the one schema call is a compilation of that location through the
    loader table.  Otherwise the embedded text is parsed as it is and, if
    that succeeds, compiled as the resource [schema.json] by a compiler
    without loader table. *)
Theorem schema_source_order (s : State) (v : ServiceConfig) (data : string) (raw : JSONValue) :
  cfgFile g <> "" ->
  parser_Parse env (cfgFile g) = Ok v ->
  schemaValidation g = true ->
  specRaw env g = Ok data ->
  json_Unmarshal env data = Ok raw ->
  ~ (schemaPath s <> "" /\ schemaFetchOnline g = true) ->
  let online := "https://www.krakend.io/schema/v" +:+ getVersionMinor (KrakendVersion g)
                +:+ "/krakend.json" in
  (schemaFetchOnline g = true \/ rawEmbedSchema g = "" ->
   List.filter isSchemaLoad (events (checkFunc env g s))
   = [EvCompile (UseLoader NewCompiler loader) online] /\
   schemaPath (final (checkFunc env g s)) = online) /\
  (schemaFetchOnline g = false -> rawEmbedSchema g <> "" -> schemaPath s <> "" ->
   List.filter isSchemaLoad (events (checkFunc env g s))
   = [EvCompile (UseLoader NewCompiler loader) (schemaPath s)]) /\
  (schemaFetchOnline g = false -> rawEmbedSchema g <> "" -> schemaPath s = "" ->
   List.filter isSchemaLoad (events (checkFunc env g s))
   = EvUnmarshalJSON (rawEmbedSchema g)
       :: match jsonschema_UnmarshalJSON env (rawEmbedSchema g) with
          | Ok doc => [EvCompile {| useLoader := None; resources := [("schema.json", doc)] |}
                         "schema.json"]
          | Err _ => []
          end).
Proof.
  intros Hc Hp Hl Hr Hj Hno online. subst online.
  apply eqb_empty_false in Hc. unfold specRaw in Hr.
  destruct (String.eqb (schemaPath s) "") eqn:Ep;
    destruct (schemaFetchOnline g) eqn:Eo;
    try (exfalso; apply Hno; split; [now apply String.eqb_neq | reflexivity]);
    clear Hno;
    destruct (String.eqb (rawEmbedSchema g) "") eqn:Ee;
    exec_checkFunc s; frame;
    (split; [intros [H|H]; first [split; reflexivity | dead]|]);
    (split; [intros H6 H7 H8; first [reflexivity | dead]|]);
    intros H6 H7 H8; first [reflexivity | dead].
Qed.

Ltac in_cases H :=
  cbn [In] in H;
  repeat (destruct H as [H|H]; [try discriminate H|]);
  try contradiction.

(** On a terminal without colours no line but the confirmation starts
    like the confirmation. *)
Ltac not_confirmed Ht H :=
  unfold errorMsg in H; try rewrite Ht in H; in_cases H.

(** The configurations that are handed out after linting. *)
Lemma afterLint_configs (v : ServiceConfig) (s : State) :
  (forall p l t v', In (EvDump p l t v') (events (afterLint env g v s)) -> v' = v) /\
  (forall ctx cfg', In (EvRun ctx cfg') (events (afterLint env g v s)) ->
     cfg' = simulated g v).
Proof.
  exec_afterLint v s; split.
  all: try (intros p l t v' H; in_cases H; now inversion H).
  all: intros ctx cfg' H; in_cases H; now inversion H.
Qed.

(** C9.  The only calls that receive a configuration are the dump and the
    routing layer's [Run].  Whatever is dumped is the configuration as the
    parser gave it.  [RunRouterFunc] receives its configuration by value and
    hands [Run] a configuration whose debug flag is the disjunction of the
    given flag and [debug > 0] (so a flag that is set stays set), whose port
    is the [port] variable when that is not zero and the given port when it
    is, and whose other fields are the given ones; in a run of [checkFunc]
    the given configuration is the parsed one. *)
Theorem config_overrides_only_in_simulation (s : State) :
  (forall cfg s', exists ctx cfg',
     List.filter isRun (events (RunRouterFunc env g cfg s')) = [EvRun ctx cfg'] /\
     Debug cfg' = Debug cfg || (0 <? debug g) /\
     (Debug cfg = true -> Debug cfg' = true) /\
     (port g <> 0 -> Port cfg' = port g) /\
     (port g = 0 -> Port cfg' = Port cfg) /\
     others cfg' = others cfg) /\
  (forall p l t v',
     In (EvDump p l t v') (events (checkFunc env g s)) ->
     parser_Parse env (cfgFile g) = Ok v') /\
  (forall ctx cfg',
     In (EvRun ctx cfg') (events (checkFunc env g s)) ->
     exists v,
       parser_Parse env (cfgFile g) = Ok v /\
       Debug cfg' = Debug v || (0 <? debug g) /\
       Port cfg' = (if port g =? 0 then Port v else port g) /\
       others cfg' = others v).
Proof.
  split; [|split].
  - intros cfg s'. rewrite RunRouterFunc_eval. cbv zeta.
    match goal with
    | |- context [fault ?o] => destruct (fault o)
    end; eexists; eexists; (split; [reflexivity|]); cbn [Debug Port others];
      (split; [reflexivity|]);
      (split; [intros ->; reflexivity|]);
      (split; [intros Hp; apply Z.eqb_neq in Hp; now rewrite Hp|]);
      (split; [intros ->; reflexivity | reflexivity]).
  - exec_checkFunc s; intros p l t v' H; in_cases H.
    all: match goal with
         | H : In _ (events (afterLint _ _ ?v ?s')) |- _ =>
             apply (proj1 (afterLint_configs v s')) in H; now subst
         end.
  - exec_checkFunc s; intros ctx cfg' H; in_cases H.
    all: match goal with
         | H : In _ (events (afterLint _ _ ?v ?s')) |- _ =>
             apply (proj2 (afterLint_configs v s')) in H; subst;
             exists v; repeat split; reflexivity
         end.
Qed.

(** *** The stages in sequence *)

(** The stages after linting all leave a call, and come in order after
    the stages of linting. *)
Lemma afterLint_logged (L : Stage -> bool) :
  L StDump = true -> L StSimulate = true ->
  List.filter L (attempted (requestedAfterLint env g)) = attempted (requestedAfterLint env g).
Proof.
  intros Hd Hs. unfold requestedAfterLint.
  destruct (0 <? debug g), (checkGinRoutes g), (specDump env g), (specSimulate env g);
    cbn [app attempted List.filter]; rewrite ?Hd, ?Hs; reflexivity.
Qed.

Lemma afterLint_sorted :
  StronglySorted lt (map rank (attempted (requestedAfterLint env g))).
Proof.
  unfold requestedAfterLint.
  destruct (0 <? debug g), (checkGinRoutes g), (specDump env g), (specSimulate env g);
    cbn [app attempted map rank]; repeat constructor.
Qed.

Lemma afterLint_above (n : nat) :
  (n < 8)%nat ->
  Forall (lt n) (map rank (attempted (requestedAfterLint env g))).
Proof.
  intros Hn. unfold requestedAfterLint.
  destruct (0 <? debug g), (checkGinRoutes g), (specDump env g), (specSimulate env g);
    cbn [app attempted map rank];
    repeat first [apply List.Forall_nil | apply List.Forall_cons; [lia|]].
Qed.

(** What the run does after linting, against the stages asked for. *)
Lemma afterLint_pipeline (v : ServiceConfig) (s : State) :
  parser_Parse env (cfgFile g) = Ok v ->
  stagesOf (events (afterLint env g v s)) = attempted (requestedAfterLint env g) /\
  (exitStatus (outcome (afterLint env g v s)) = 0
   <-> forallb snd (requestedAfterLint env g) = true) /\
  (exitStatus (outcome (afterLint env g v s)) = 0 \/
   exitStatus (outcome (afterLint env g v s)) = 1 \/
   exitStatus (outcome (afterLint env g v s)) = 2) /\
  (exitStatus (outcome (afterLint env g v s)) = 0 ->
   last (events (afterLint env g v s)) = Some (EvPrint (confirmation g))) /\
  (exitStatus (outcome (afterLint env g v s)) = 1 ->
   exists msg, last (events (afterLint env g v s)) = Some (EvPrint msg)) /\
  (exitStatus (outcome (afterLint env g v s)) = 2 ->
   exists ctx cfg, last (events (afterLint env g v s)) = Some (EvRun ctx cfg)) /\
  (IsTTY g = false ->
   In (EvPrint ("Syntax OK!" +:+ nl)) (events (afterLint env g v s)) ->
   exitStatus (outcome (afterLint env g v s)) = 0).
Proof.
  intros Hp.
  unfold requestedAfterLint, specDump, specSimulate, specParse, confirmation.
  rewrite Hp.
  exec_afterLint v s;
    cbn [stagesOf stageOf app attempted isNone forallb snd andb exitStatus];
    (split; [reflexivity|]);
    (split; [split; intros H; first [reflexivity | discriminate H]|]);
    (split; [auto|]);
    (split; [intros H; first [reflexivity | discriminate H]|]);
    (split; [intros H; first [discriminate H | repeat eexists; reflexivity]|]);
    (split; [intros H; first [discriminate H | repeat eexists; reflexivity]|]);
    intros Ht H; first [reflexivity | not_confirmed Ht H].
Qed.

(** The value of a quantity of the specification on the path at hand. *)
Ltac settle t open :=
  let H := fresh "Espec" in
  eassert (t = _) as H
    by (open; cbv beta zeta;
        repeat (progress (use_equations; cbv beta iota;
                          cbn [app attempted isOk isNone negb forallb snd andb orb
                               List.filter]));
        rewrite ?afterLint_logged by reflexivity;
        reflexivity).

Ltac sorted_ranks :=
  repeat (apply SSorted_cons;
          [| repeat (apply List.Forall_cons; [lia|]);
             first [apply List.Forall_nil | apply afterLint_above; lia]]);
  first [apply SSorted_nil | apply afterLint_sorted].

Ltac after_lint_facts :=
  try match goal with
      | H : parser_Parse env (cfgFile g) = Ok ?v |- context [afterLint env g ?v ?s'] =>
          destruct (afterLint_pipeline v s' H) as (Tstages & Tiff & Tcode & T0 & T1 & T2 & T3);
          cbn [stagesOf stageOf]; rewrite ?Tstages
      end.

(** C7.  The calls of a run, taken by stage, are those of the stages
    asked for, in the order of the specification, up to and including the
    first stage that fails; the ranks of the stages rise strictly along the
    run, so no stage is entered twice.  The exit status is 0 exactly when the
    path is given and every stage asked for succeeds, and otherwise 1 (or 2,
    when the simulation ends in a panic that is not recovered).  With status
    0 the last thing done is to print the confirmation; with status 1, to
    print a line (the error of the stage that failed); with status 2, the
    routing layer's [Run].  When the output is not a terminal, the
    confirmation is printed in no run but those of status 0. *)
Theorem pipeline_in_sequence (s : State) :
  stagesOf (events (checkFunc env g s))
  = List.filter (logged g s) (attempted (requested env g s)) /\
  StronglySorted lt (map rank (stagesOf (events (checkFunc env g s)))) /\
  (exitStatus (outcome (checkFunc env g s)) = 0
   <-> forallb snd (requested env g s) = true) /\
  (exitStatus (outcome (checkFunc env g s)) = 0 \/
   exitStatus (outcome (checkFunc env g s)) = 1 \/
   exitStatus (outcome (checkFunc env g s)) = 2) /\
  (exitStatus (outcome (checkFunc env g s)) = 0 ->
   last (events (checkFunc env g s)) = Some (EvPrint (confirmation g))) /\
  (exitStatus (outcome (checkFunc env g s)) = 1 ->
   exists msg, last (events (checkFunc env g s)) = Some (EvPrint msg)) /\
  (exitStatus (outcome (checkFunc env g s)) = 2 ->
   exists ctx cfg, last (events (checkFunc env g s)) = Some (EvRun ctx cfg)) /\
  (IsTTY g = false ->
   In (EvPrint ("Syntax OK!" +:+ nl)) (events (checkFunc env g s)) ->
   exitStatus (outcome (checkFunc env g s)) = 0).
Proof.
  run_checkFunc s; after_lint_facts;
    settle (specParse env g) ltac:(unfold specParse);
    settle (specRaw env g) ltac:(unfold specRaw);
    settle (specJSON env g) ltac:(unfold specJSON);
    settle (specSource g s) ltac:(unfold specSource, resolveSource);
    settle (specLoad env g s) ltac:(unfold specLoad);
    settle (specCompile env g s) ltac:(unfold specCompile);
    settle (specValidate env g s) ltac:(unfold specValidate);
    settle (List.filter (logged g s) (attempted (requested env g s)))
      ltac:(unfold requested, requestedLint, logged);
    settle (forallb snd (requested env g s)) ltac:(unfold requested, requestedLint);
    match goal with
    | E1 : List.filter _ _ = _, E2 : forallb _ _ = _ |- _ => rewrite E1, E2
    end;
    cbn [stagesOf stageOf exitStatus map rank].
  all: split; [reflexivity|].
  all: split; [sorted_ranks|].
  all: split; [first [assumption | split; intros H; discriminate H]|].
  all: split; [first [assumption | auto]|].
  all: split;
    [intros H; first [discriminate H | reflexivity | rewrite !last_cons, (T0 H); reflexivity]|].
  all: split;
    [intros H;
     first [ discriminate H
           | repeat eexists; reflexivity
           | destruct (T1 H) as [msg Hm]; exists msg; rewrite !last_cons, Hm; reflexivity ]|].
  all: split;
    [intros H;
     first [ discriminate H
           | repeat eexists; reflexivity
           | destruct (T2 H) as (ctx & cfg & Hm); exists ctx, cfg;
             rewrite !last_cons, Hm; reflexivity ]|].
  all: intros Ht H; not_confirmed Ht H; exact (T3 Ht H).
Qed.

(** *** Further properties of [checkFunc] *)

Lemma Sprintf_parsing (path : string) :
  Sprintf ("Parsing configuration file: %s" +:+ nl) [AStr path]
  = "Parsing configuration file: " +:+ path +:+ nl.
Proof. reflexivity. Qed.

Lemma Sprintf_using (location : string) :
  Sprintf ("Using schema %s" +:+ nl) [AStr location] = "Using schema " +:+ location +:+ nl.
Proof. reflexivity. Qed.

Lemma detail_text (e : error) : detail e = tab +:+ e +:+ nl.
Proof. reflexivity. Qed.

(** Without [--config] nothing is attempted: the run prints the hint and
    exits with status 1; no file is parsed or read and the state is left as
    it was. *)
Theorem checkFunc_without_path (s : State) :
  cfgFile g = "" ->
  checkFunc env g s
  = {| outcome := Exits 1;
       final := s;
       events := [EvPrint (errorMsg g "Please, provide the path to the configuration file with --config or see all the options with --help" +:+ nl)] |}.
Proof.
  intros H. unfold checkFunc. rewrite H. reflexivity.
Qed.

(** When the parser rejects the file, the run consists of the announcement,
    the call of the parser and one error line, which carries the parser's
    message after a tab and ends in two line feeds; the exit status is 1 and
    the state is left as it was. *)
Theorem checkFunc_parse_error (s : State) (e : error) :
  cfgFile g <> "" ->
  parser_Parse env (cfgFile g) = Err e ->
  checkFunc env g s
  = {| outcome := Exits 1;
       final := s;
       events := [EvPrint ("Parsing configuration file: " +:+ cfgFile g +:+ nl);
                  EvParse (cfgFile g);
                  EvPrint ((errorMsg g "ERROR parsing the configuration file:"
                            +:+ tab +:+ e +:+ nl) +:+ nl)] |}.
Proof.
  intros Hc Hp. apply eqb_empty_false in Hc.
  unfold checkFunc. rewrite Hc.
  unfold bind, Printf, Println, call, os_Exit. cbn [outcome final events].
  rewrite Hp. reflexivity.
Qed.

(** With no linting, no dump and no route check asked for, a file that
    parses gives a run of three events -- the announcement, the call of the
    parser, the confirmation -- that returns and leaves the state as it was. *)
Theorem checkFunc_parse_only (s : State) (v : ServiceConfig) :
  cfgFile g <> "" ->
  parser_Parse env (cfgFile g) = Ok v ->
  schemaValidation g = false ->
  debug g <= 0 ->
  checkGinRoutes g = false ->
  checkFunc env g s
  = {| outcome := Returns tt;
       final := s;
       events := [EvPrint ("Parsing configuration file: " +:+ cfgFile g +:+ nl);
                  EvParse (cfgFile g);
                  EvPrint (confirmation g)] |}.
Proof.
  intros Hc Hp Hl Hd Hr. apply eqb_empty_false in Hc.
  apply Z.ltb_ge in Hd.
  unfold checkFunc, checkFunc_lint, checkFunc_dump, checkFunc_routes, checkFunc_report,
    confirmation.
  rewrite Hc, Hl, Hd, Hr.
  unfold bind, Printf, Println, call, ret. cbn [outcome final events].
  rewrite Hp. cbn [outcome final events].
  destruct (IsTTY g); cbn [outcome final events app]; now destruct s.
Qed.

(** Without [--lint] no raw bytes are obtained, no schema is loaded,
    parsed or compiled, and [schemaPath] is not assigned, whatever the other
    flags and whatever the outcome. *)
Theorem checkFunc_without_lint (s : State) :
  schemaValidation g = false ->
  List.filter isRawSource (events (checkFunc env g s)) = [] /\
  List.filter isSchemaLoad (events (checkFunc env g s)) = [] /\
  schemaPath (final (checkFunc env g s)) = schemaPath s.
Proof.
  intros Hl. exec_checkFunc s; frame; repeat split; reflexivity.
Qed.

(** After linting, with the route check off: no call of the simulation,
    and clock and contexts as before. *)
Lemma afterLint_without_routes (v : ServiceConfig) (s : State) :
  checkGinRoutes g = false ->
  List.filter isRouter (events (afterLint env g v s)) = [] /\
  contexts (final (afterLint env g v s)) = contexts s /\
  clock (final (afterLint env g v s)) = clock s.
Proof.
  intros Hr. exec_afterLint v s; repeat split; reflexivity.
Qed.

(** Without the route check the routing layer is left alone: gin's mode
    is not set, no context is made or cancelled, [Run] is not called, and the
    clock and the contexts are as before. *)
Theorem checkFunc_without_routes (s : State) :
  checkGinRoutes g = false ->
  List.filter isRouter (events (checkFunc env g s)) = [] /\
  contexts (final (checkFunc env g s)) = contexts s /\
  clock (final (checkFunc env g s)) = clock s.
Proof.
  intros Hr. exec_checkFunc s; cbn [List.filter isRouter contexts clock].
  all: try match goal with
           | |- context [afterLint env g ?v ?s'] =>
               destruct (afterLint_without_routes v s' Hr) as (A & B & C);
               rewrite A, B, C
           end.
  all: repeat split; reflexivity.
Qed.

(** The dump after linting: one, with the prefix, the level and the
    terminal flag of the package, when the level is positive; none otherwise. *)
Lemma afterLint_dump (v : ServiceConfig) (s : State) :
  List.filter isDump (events (afterLint env g v s))
  = if 0 <? debug g
    then [EvDump (checkDumpPrefix g) (debug g) (IsTTY g) v]
    else [].
Proof.
  exec_afterLint v s; reflexivity.
Qed.

(** The configuration is dumped at most once in a run; not at all when
    [debug] is not positive; and when it is dumped, then the parsed
    configuration, with the prefix, the level and the terminal flag of the
    package. *)
Theorem checkFunc_dump_once (s : State) :
  (debug g <= 0 -> List.filter isDump (events (checkFunc env g s)) = []) /\
  (List.filter isDump (events (checkFunc env g s)) = [] \/
   exists v,
     parser_Parse env (cfgFile g) = Ok v /\
     0 < debug g /\
     List.filter isDump (events (checkFunc env g s))
     = [EvDump (checkDumpPrefix g) (debug g) (IsTTY g) v]).
Proof.
  exec_checkFunc s; cbn [List.filter isDump]; rewrite ?afterLint_dump.
  all: split; [intros Hd; apply Z.ltb_ge in Hd; now rewrite ?Hd|].
  all: try (left; reflexivity).
  all: destruct (0 <? debug g) eqn:Ed; [|left; reflexivity].
  all: right; eexists; split; [reflexivity|]; split; [now apply Z.ltb_lt | reflexivity].
Qed.

(** After linting nothing is validated or compiled. *)
Lemma afterLint_no_validation (v : ServiceConfig) (s : State) :
  forall ev, In ev (events (afterLint env g v s)) ->
             match ev with
             | EvValidate _ _ | EvCompile _ _ => False
             | _ => True
             end.
Proof.
  exec_afterLint v s; intros ev Hin; in_cases Hin; subst; exact I.
Qed.

(** What is validated is what was decoded from the raw bytes of the
    configuration -- those of the parser's last source if it has one, those of
    the file otherwise -- and it is validated against a schema that a
    compilation of this run has produced. *)
Theorem checkFunc_validates_decoded_source (s : State) (sch : Schema) (doc : JSONValue) :
  In (EvValidate sch doc) (events (checkFunc env g s)) ->
  exists data c name,
    match parser_LastSource env with
    | Some src => src
    | None => os_ReadFile env (cfgFile g)
    end = Ok data /\
    json_Unmarshal env data = Ok doc /\
    In (EvCompile c name) (events (checkFunc env g s)) /\
    jsonschema_Compile env c name = Ok sch.
Proof.
  exec_checkFunc s; intros H; in_cases H.
  all: try (match goal with
            | H : In _ (events (afterLint _ _ ?v ?s')) |- _ =>
                apply (afterLint_no_validation v s') in H; contradiction
            end).
  all: inversion H; subst; do 3 eexists;
    (split; [reflexivity|]); (split; [eassumption|]);
    (split; [cbn [In]; repeat first [left; reflexivity | right]|]); eassumption.
Qed.


(** A run with [--online] is not repeatable within a process.  The first
    run that gets as far as the resolution assigns the online URL to the
    package variable [schemaPath] and leaves it there; the same call made
    again then finds a location together with [--online], loads no schema,
    prints that the two options exclude each other, and exits with status 1. *)
Theorem checkFunc_online_not_repeatable (s : State) (v : ServiceConfig)
    (data : string) (raw : JSONValue) :
  cfgFile g <> "" ->
  parser_Parse env (cfgFile g) = Ok v ->
  schemaValidation g = true ->
  match parser_LastSource env with
  | Some src => src
  | None => os_ReadFile env (cfgFile g)
  end = Ok data ->
  json_Unmarshal env data = Ok raw ->
  schemaPath s = "" ->
  schemaFetchOnline g = true ->
  let again := checkFunc env g (final (checkFunc env g s)) in
  schemaPath (final (checkFunc env g s))
  = "https://www.krakend.io/schema/v" +:+ getVersionMinor (KrakendVersion g)
    +:+ "/krakend.json" /\
  outcome again = Exits 1 /\
  List.filter isSchemaLoad (events again) = [] /\
  last (events again)
  = Some (EvPrint (errorMsg g "You cannot use both the --schema and --online options simultaneously. These arguments are mutually exclusive." +:+ nl)).
Proof.
  intros Hc Hp Hl Hr Hj Hs Ho again. subst again.
  apply eqb_empty_false in Hc.
  assert (String.eqb (schemaPath s) "" = true) as Hs' by now rewrite Hs.
  assert (schemaPath (final (checkFunc env g s))
          = "https://www.krakend.io/schema/v" +:+ getVersionMinor (KrakendVersion g)
            +:+ "/krakend.json") as Hleft
    by (clear Hs; exec_checkFunc s; frame; first [reflexivity | dead]).
  split; [exact Hleft|].
  assert (String.eqb (schemaPath (final (checkFunc env g s))) "" = false) as Hne
    by now rewrite Hleft.
  clear Hleft Hs Hs'.
  set (s2 := final (checkFunc env g s)) in *. clearbody s2.
  exec_checkFunc s2; frame; repeat split; first [reflexivity | dead].
Qed.

(** The schema calls of a run that gets as far as the resolution with
    neither a location nor [--online]: by whether an embedded schema is there. *)
Lemma schema_calls_by_default (s : State) (v : ServiceConfig) (data : string)
    (raw : JSONValue) :
  cfgFile g <> "" ->
  parser_Parse env (cfgFile g) = Ok v ->
  schemaValidation g = true ->
  match parser_LastSource env with
  | Some src => src
  | None => os_ReadFile env (cfgFile g)
  end = Ok data ->
  json_Unmarshal env data = Ok raw ->
  schemaPath s = "" ->
  schemaFetchOnline g = false ->
  List.filter isSchemaLoad (events (checkFunc env g s))
  = if String.eqb (rawEmbedSchema g) ""
    then [EvCompile (UseLoader NewCompiler loader)
            ("https://www.krakend.io/schema/v" +:+ getVersionMinor (KrakendVersion g)
             +:+ "/krakend.json")]
    else EvUnmarshalJSON (rawEmbedSchema g)
           :: match jsonschema_UnmarshalJSON env (rawEmbedSchema g) with
              | Ok doc => [EvCompile (AddResource NewCompiler "schema.json" doc) "schema.json"]
              | Err _ => []
              end.
Proof.
  intros Hc Hp Hl Hr Hj Hs Ho. apply eqb_empty_false in Hc.
  assert (String.eqb (schemaPath s) "" = true) as Hs' by now rewrite Hs.
  clear Hs.
  exec_checkFunc s; frame; first [reflexivity | dead].
Qed.

End PipelineProperties.

Lemma checkFunc_raw_bytes_witness :
  List.filter isRawSource
    (events (checkFunc (Sample.env (Some (Ok "{}")) Sample.runs 200)
               (Sample.flags true false "{}" false) (Sample.start "")))
  = [EvLastSource; EvJSONUnmarshal "{}"] /\
  List.filter isRawSource
    (events (checkFunc (Sample.env None Sample.runs 200)
               (Sample.flags true false "{}" false) (Sample.start "")))
  = [EvReadFile "krakend.json"; EvJSONUnmarshal "{}"].
Proof.
  split.
  - apply (checkFunc_raw_bytes (Sample.env (Some (Ok "{}")) Sample.runs 200)
             (Sample.flags true false "{}" false) (Sample.start "") Sample.cfg);
      [discriminate | reflexivity | reflexivity].
  - apply (checkFunc_raw_bytes (Sample.env None Sample.runs 200)
             (Sample.flags true false "{}" false) (Sample.start "") Sample.cfg);
      [discriminate | reflexivity | reflexivity].
Defined.

Lemma conflicting_options_stop_witness :
  outcome (checkFunc (Sample.env None Sample.runs 200)
             (Sample.flags true true "{}" true) (Sample.start "./schema.json"))
  = Exits 1 /\
  List.filter isSchemaLoad
    (events (checkFunc (Sample.env None Sample.runs 200)
               (Sample.flags true true "{}" true) (Sample.start "./schema.json")))
  = [] /\
  last (events (checkFunc (Sample.env None Sample.runs 200)
                  (Sample.flags true true "{}" true) (Sample.start "./schema.json")))
  = Some (EvPrint ("You cannot use both the --schema and --online options simultaneously. These arguments are mutually exclusive." +:+ nl)).
Proof.
  destruct (conflicting_options_stop (Sample.env None Sample.runs 200)
              (Sample.flags true true "{}" true) (Sample.start "./schema.json")
              ltac:(discriminate) eq_refl) as (A & _ & C & D).
  split; [exact (C eq_refl)|]. split; [exact A|].
  exact (D Sample.cfg "{}" "{}" ltac:(discriminate) eq_refl eq_refl eq_refl eq_refl).
Defined.

Lemma schema_source_order_witness :
  List.filter isSchemaLoad
    (events (checkFunc (Sample.env None Sample.runs 200)
               (Sample.flags true true "{}" false) (Sample.start "")))
  = [EvCompile (UseLoader NewCompiler loader)
       "https://www.krakend.io/schema/v2.7/krakend.json"] /\
  List.filter isSchemaLoad
    (events (checkFunc (Sample.env None Sample.runs 200)
               (Sample.flags true false "" false) (Sample.start "./schema.json")))
  = [EvCompile (UseLoader NewCompiler loader)
       "https://www.krakend.io/schema/v2.7/krakend.json"] /\
  List.filter isSchemaLoad
    (events (checkFunc (Sample.env None Sample.runs 200)
               (Sample.flags true false "{}" false) (Sample.start "./schema.json")))
  = [EvCompile (UseLoader NewCompiler loader) "./schema.json"] /\
  List.filter isSchemaLoad
    (events (checkFunc (Sample.env None Sample.runs 200)
               (Sample.flags true false "{}" false) (Sample.start "")))
  = [EvUnmarshalJSON "{}";
     EvCompile {| useLoader := None; resources := [("schema.json", "{}")] |} "schema.json"].
Proof.
  split; [|split; [|split]].
  - refine (proj1 (proj1
              (schema_source_order (Sample.env None Sample.runs 200)
                 (Sample.flags true true "{}" false) (Sample.start "")
                 Sample.cfg "{}" "{}" _ eq_refl eq_refl eq_refl eq_refl _) _)).
    + discriminate.
    + intros [N _]. now apply N.
    + left. reflexivity.
  - refine (proj1 (proj1
              (schema_source_order (Sample.env None Sample.runs 200)
                 (Sample.flags true false "" false) (Sample.start "./schema.json")
                 Sample.cfg "{}" "{}" _ eq_refl eq_refl eq_refl eq_refl _) _)).
    + discriminate.
    + intros [_ N]. discriminate N.
    + right. reflexivity.
  - refine (proj1 (proj2
              (schema_source_order (Sample.env None Sample.runs 200)
                 (Sample.flags true false "{}" false) (Sample.start "./schema.json")
                 Sample.cfg "{}" "{}" _ eq_refl eq_refl eq_refl eq_refl _)) eq_refl _ _).
    + discriminate.
    + intros [_ N]. discriminate N.
    + discriminate.
    + discriminate.
  - refine (proj2 (proj2
              (schema_source_order (Sample.env None Sample.runs 200)
                 (Sample.flags true false "{}" false) (Sample.start "")
                 Sample.cfg "{}" "{}" _ eq_refl eq_refl eq_refl eq_refl _)) eq_refl _ eq_refl).
    + discriminate.
    + intros [N _]. now apply N.
    + discriminate.
Defined.

Lemma config_overrides_only_in_simulation_witness :
  exists v,
    parser_Parse (Sample.env None Sample.runs 200) "krakend.json" = Ok v /\
    true = Debug v || (0 <? 2) /\
    8080 = (if 0 =? 0 then Port v else 0) /\
    ["/users/:id"; "/orders"] = others v.
Proof.
  apply (proj2 (proj2 (config_overrides_only_in_simulation
                         (Sample.env None Sample.runs 200) Sample.everything
                         (Sample.start ""))) 0%nat
               {| Debug := true; Port := 8080; others := ["/users/:id"; "/orders"] |}).
  cbv. repeat first [left; reflexivity | right].
Defined.

Lemma pipeline_in_sequence_witness :
  last (events (checkFunc (Sample.env None Sample.runs 200) Sample.everything
                  (Sample.start "")))
  = Some (EvPrint ("Syntax OK!" +:+ nl)).
Proof.
  destruct (pipeline_in_sequence (Sample.env None Sample.runs 200) Sample.everything
              (Sample.start "")) as (_ & _ & Hiff & _ & Hlast & _).
  apply Hlast. apply Hiff. reflexivity.
Defined.

(** * More of check.go *)

(** ** getVersionMinor, further *)


Lemma occurs_append (c : ascii) (a b : string) :
  occurs c (a +:+ b) = (occurs c a + occurs c b)%nat.
Proof.
  induction a as [|x a IH]; [reflexivity|].
  change (occurs c (String x (a +:+ b)) = (occurs c (String x a) + occurs c b)%nat).
  cbn [occurs]. rewrite IH. lia.
Qed.

(** A string without the separator is its own single component. *)
Lemma Split_none (s : string) (c : ascii) : occurs c s = 0%nat -> Split s c = [s].
Proof.
  induction s as [|a s IH]; [reflexivity|].
  cbn [occurs Split]. destruct (Ascii.eqb a c); [discriminate|].
  intros H. now rewrite IH.
Qed.

(** The first separator ends the first component. *)
Lemma Split_append (a b : string) (c : ascii) :
  occurs c a = 0%nat -> Split (a +:+ String c b) c = a :: Split b c.
Proof.
  induction a as [|x a IH].
  - intros _. change (Split (String c b) c = "" :: Split b c).
    cbn [Split]. now rewrite Ascii.eqb_refl.
  - change (String x a +:+ String c b) with (String x (a +:+ String c b)).
    cbn [occurs Split]. destruct (Ascii.eqb x c); [discriminate|].
    intros H. now rewrite IH.
Qed.

(** The two cases of [getVersionMinor], by the components of its input. *)
Lemma getVersionMinor_cases (ver : string) :
  (forall c0, Split ver dot = [c0] -> getVersionMinor ver = ver) /\
  (forall c0 c1 rest, Split ver dot = c0 :: c1 :: rest ->
     getVersionMinor ver = c0 +:+ String dot c1).
Proof.
  unfold getVersionMinor. split.
  - intros c0 E. now rewrite E.
  - intros c0 c1 rest E. rewrite E. cbn [length nth].
    destruct (Z.ltb_spec (Z.of_nat (S (S (length rest)))) 2); [lia|].
    apply Sprintf_two.
Qed.

(** What [getVersionMinor] yields is left as it is by [getVersionMinor]:
    a second application changes nothing. *)
Theorem getVersionMinor_idempotent (ver : string) :
  getVersionMinor (getVersionMinor ver) = getVersionMinor ver.
Proof.
  destruct (getVersionMinor_cases ver) as [H1 H2].
  pose proof (Split_components ver dot) as Hc.
  destruct (Split ver dot) as [|c0 [|c1 rest]] eqn:E.
  - now destruct (Split_not_nil ver dot).
  - now rewrite !(H1 c0 eq_refl).
  - rewrite (H2 c0 c1 rest eq_refl).
    inversion Hc as [|? ? Hc0 Hc']; subst. inversion Hc' as [|? ? Hc1 _]; subst.
    destruct (getVersionMinor_cases (c0 +:+ String dot c1)) as [_ H2'].
    apply (H2' c0 c1 []).
    rewrite (Split_append c0 c1 dot Hc0). now rewrite (Split_none c1 dot Hc1).
Qed.


(** The result of [getVersionMinor] has a dot exactly when the input has
    one, and never more than one. *)
Theorem getVersionMinor_dots (ver : string) :
  occurs dot (getVersionMinor ver) = Nat.min 1 (occurs dot ver).
Proof.
  destruct (getVersionMinor_cases ver) as [H1 H2].
  pose proof (Split_components ver dot) as Hc.
  pose proof (Split_length ver dot) as Hl.
  destruct (Split ver dot) as [|c0 [|c1 rest]] eqn:E.
  - now destruct (Split_not_nil ver dot).
  - rewrite (H1 c0 eq_refl). cbn [length] in Hl.
    assert (occurs dot ver = 0%nat) as -> by lia. reflexivity.
  - rewrite (H2 c0 c1 rest eq_refl).
    inversion Hc as [|? ? Hc0 Hc']; subst. inversion Hc' as [|? ? Hc1 _]; subst.
    rewrite occurs_append. cbn [occurs]. rewrite Hc0, Hc1.
    change (Ascii.eqb dot dot) with true. cbn [length] in Hl.
    destruct (occurs dot ver); [lia | reflexivity].
Qed.

(** ** RunRouterFunc, further *)

Section RouterMore.

Context {Fields JSONValue Schema : Type}.
Variable env : @Env Fields JSONValue Schema.
Variable g : Globals.

(** A panic of [Run] whose value is a string ends at [RunRouterFunc]: the
    function returns, and the error it returns is that string, whenever the
    panic happens. *)
Theorem RunRouterFunc_string_panic_is_error (cfg : ServiceConfig) (s : State)
    ctx cfg' (m : string) :
  In (EvRun ctx cfg') (events (RunRouterFunc env g cfg s)) ->
  fault (router_Run env cfg') = Some (PString m) ->
  outcome (RunRouterFunc env g cfg s) = Returns (Some m).
Proof.
  intros Hin Hfault.
  apply RunRouterFunc_Run_event in Hin as [_ ->].
  rewrite RunRouterFunc_eval. cbv zeta. now rewrite Hfault.
Qed.

(** Once the deadline of one second has passed while [Run] was at work,
    the context is done when [RunRouterFunc] is left, whether [Run] returned
    or panicked, and whatever it panicked with. *)
Theorem RunRouterFunc_deadline_ends_context (cfg : ServiceConfig) (s : State) ctx cfg' :
  In (EvRun ctx cfg') (events (RunRouterFunc env g cfg s)) ->
  time_Second <= elapsed (router_Run env cfg') ->
  ctxDone (final (RunRouterFunc env g cfg s)) ctx = true.
Proof.
  intros Hin Hel.
  apply RunRouterFunc_Run_event in Hin as [-> ->].
  rewrite RunRouterFunc_eval. cbv zeta.
  match goal with
  | |- context [fault ?o] => destruct (fault o)
  end; unfold ctxDone; cbn [final contexts clock].
  - rewrite list_lookup_middle by reflexivity. cbn [cancelled deadline orb].
    apply Z.leb_le. lia.
  - rewrite list_lookup_alter_eq, list_lookup_middle by reflexivity. reflexivity.
Qed.

(** What a call of [RunRouterFunc] does to the state: [schemaPath] is left
    alone; one context is made, with its deadline one second after the
    start of the call, and the contexts made before are neither removed nor
    cancelled; and the clock has moved by the time that [Run] took. *)
Theorem RunRouterFunc_state (cfg : ServiceConfig) (s : State) :
  schemaPath (final (RunRouterFunc env g cfg s)) = schemaPath s /\
  length (contexts (final (RunRouterFunc env g cfg s))) = S (length (contexts s)) /\
  (forall i, (i < length (contexts s))%nat ->
     contexts (final (RunRouterFunc env g cfg s)) !! i = contexts s !! i) /\
  (exists c,
     contexts (final (RunRouterFunc env g cfg s)) !! length (contexts s) = Some c /\
     deadline c = clock s + time_Second) /\
  (forall ctx cfg',
     In (EvRun ctx cfg') (events (RunRouterFunc env g cfg s)) ->
     clock (final (RunRouterFunc env g cfg s)) = clock s + elapsed (router_Run env cfg')).
Proof.
  assert (Hev := RunRouterFunc_Run_event env g cfg s).
  rewrite RunRouterFunc_eval in *. cbv zeta in *.
  match goal with
  | |- context [fault ?o] => destruct (fault o)
  end; cbn [final contexts clock schemaPath events] in *.
  - split; [reflexivity|]. split; [rewrite length_app; cbn [length]; lia|].
    split; [intros i Hi; now apply lookup_app_l|].
    split; [eexists; split; [now apply list_lookup_middle | reflexivity]|].
    intros ctx cfg' Hin. apply Hev in Hin as [_ ->]. reflexivity.
  - split; [reflexivity|].
    split; [rewrite length_alter, length_app; cbn [length]; lia|].
    split; [intros i Hi; rewrite list_lookup_alter_ne by lia; now apply lookup_app_l|].
    split; [eexists; split;
            [rewrite list_lookup_alter_eq, list_lookup_middle by reflexivity; reflexivity
            | reflexivity]|].
    intros ctx cfg' Hin. apply Hev in Hin as [_ ->]. reflexivity.
Qed.

(** The overrides are applied once and for all: the configuration that
    [Run] receives, given again to [RunRouterFunc], reaches [Run] as it is. *)
Theorem RunRouterFunc_overrides_idempotent (cfg : ServiceConfig) (s s' : State)
    ctx1 cfg1 ctx2 cfg2 :
  In (EvRun ctx1 cfg1) (events (RunRouterFunc env g cfg s)) ->
  In (EvRun ctx2 cfg2) (events (RunRouterFunc env g cfg1 s')) ->
  cfg2 = cfg1.
Proof.
  intros H1 H2.
  apply RunRouterFunc_Run_event in H1 as [_ ->].
  apply RunRouterFunc_Run_event in H2 as [_ ->].
  cbn [Debug Port others].
  destruct (Debug cfg), (0 <? debug g), (port g =? 0); reflexivity.
Qed.

End RouterMore.

Lemma RunRouterFunc_string_panic_is_error_witness :
  outcome (RunRouterFunc (Sample.env None Scenario.lateConflict 200)
             (Sample.flags false false "" true) Sample.cfg (Sample.start ""))
  = Returns (Some "listen: address already in use").
Proof.
  apply (RunRouterFunc_string_panic_is_error
           (Sample.env None Scenario.lateConflict 200) (Sample.flags false false "" true)
           Sample.cfg (Sample.start "") 0%nat
           {| Debug := false; Port := 9090; others := others Sample.cfg |}).
  - simpl. auto.
  - reflexivity.
Defined.

Lemma RunRouterFunc_deadline_ends_context_witness :
  ctxDone (final (RunRouterFunc (Sample.env None Scenario.lateConflict 200)
                    (Sample.flags false false "" true) Sample.cfg (Sample.start "")))
          0%nat = true.
Proof.
  apply (RunRouterFunc_deadline_ends_context
           (Sample.env None Scenario.lateConflict 200) (Sample.flags false false "" true)
           Sample.cfg (Sample.start "") 0%nat
           {| Debug := false; Port := 9090; others := others Sample.cfg |}).
  - simpl. auto.
  - simpl. unfold time_Second. lia.
Defined.

Lemma RunRouterFunc_return_cancels_witness :
  In (EvCancel 0%nat)
     (events (RunRouterFunc (Sample.env None Sample.runs 200)
                (Sample.flags false false "" true) Sample.cfg (Sample.start ""))) /\
  ctxDone (final (RunRouterFunc (Sample.env None Sample.runs 200)
                    (Sample.flags false false "" true) Sample.cfg (Sample.start "")))
          0%nat = true.
Proof.
  apply (RunRouterFunc_return_cancels
           (Sample.env None Sample.runs 200) (Sample.flags false false "" true)
           Sample.cfg (Sample.start "") 0%nat
           {| Debug := false; Port := 9090; others := others Sample.cfg |}).
  - simpl. auto.
  - reflexivity.
Defined.

Lemma RunRouterFunc_overrides_idempotent_witness :
  {| Debug := true; Port := 8080; others := others Sample.cfg |}
  = {| Debug := true; Port := 8080; others := others Sample.cfg |}.
Proof.
  apply (RunRouterFunc_overrides_idempotent
           (Sample.env None Sample.runs 200) Sample.everything
           Sample.cfg (Sample.start "") (Sample.start "./schema.json")
           0%nat {| Debug := true; Port := 8080; others := others Sample.cfg |}
           0%nat {| Debug := true; Port := 8080; others := others Sample.cfg |}).
  - simpl. auto.
  - simpl. auto.
Defined.

(** ** HTTPURLLoader.Load, further *)

Section LoaderMore.

Context {Fields JSONValue Schema : Type}.
Variable env : @Env Fields JSONValue Schema.

(** [Load] always returns, and leaves the state as it was.  It returns a
    document exactly when the request was answered, the status was 200 and
    the body parsed into that document. *)
Theorem Load_result (url : string) (s : State) :
  final (HTTPURLLoader_Load env url s) = s /\
  (exists r, outcome (HTTPURLLoader_Load env url s) = Returns r) /\
  (forall doc,
     outcome (HTTPURLLoader_Load env url s) = Returns (Ok doc) <->
     exists resp,
       client_Get env url = Ok resp /\
       StatusCode resp = http_StatusOK /\
       jsonschema_UnmarshalJSON env (Body resp) = Ok doc).
Proof.
  cbv [HTTPURLLoader_Load defer_ bind ret call outcome final events].
  destruct (client_Get env url) as [resp|e]; cbv beta iota.
  - destruct (Z.eqb_spec (StatusCode resp) http_StatusOK) as [E|E]; cbn [negb].
    + split; [reflexivity|]. split; [eauto|].
      intros doc. split.
      * intros H. exists resp. repeat split; [exact E | congruence].
      * intros (resp' & Hr & _ & Hd). inversion Hr; subst. now rewrite Hd.
    + split; [reflexivity|]. split; [eauto|].
      intros doc. split; [discriminate|].
      intros (resp' & Hr & Hs & _). inversion Hr; subst. contradiction.
  - split; [reflexivity|]. split; [eauto|].
    intros doc. split; [discriminate|].
    intros (resp' & Hr & _). discriminate Hr.
Qed.

End LoaderMore.

Lemma Load_transport_error_witness :
  outcome (HTTPURLLoader_Load Scenario.offline
             "https://www.krakend.io/schema/v2.7/krakend.json" (Sample.start ""))
  = Returns (Err "dial tcp: lookup www.krakend.io: no such host") /\
  events (HTTPURLLoader_Load Scenario.offline
            "https://www.krakend.io/schema/v2.7/krakend.json" (Sample.start ""))
  = [EvGet "https://www.krakend.io/schema/v2.7/krakend.json"].
Proof.
  apply (Load_transport_error Scenario.offline
           "https://www.krakend.io/schema/v2.7/krakend.json" (Sample.start "")
           "dial tcp: lookup www.krakend.io: no such host" eq_refl).
Defined.

(** ** NewCheckCmd and the colours *)

(** [NewCheckCmd] decides what a linting run without [--schema] and
    without [--online] takes as its schema.  Given the empty text, the run
    compiles the online URL through the loader table; given any other text,
    the run parses that text and compiles it as the resource [schema.json],
    and asks no loader. *)
Theorem NewCheckCmd_decides_default {Fields JSONValue Schema : Type}
    (env : @Env Fields JSONValue Schema) (g : Globals) (rawSchema : string)
    (s : State) (v : ServiceConfig) (data : string) (raw : JSONValue) :
  cfgFile g <> "" ->
  parser_Parse env (cfgFile g) = Ok v ->
  schemaValidation g = true ->
  match parser_LastSource env with
  | Some src => src
  | None => os_ReadFile env (cfgFile g)
  end = Ok data ->
  json_Unmarshal env data = Ok raw ->
  schemaPath s = "" ->
  schemaFetchOnline g = false ->
  List.filter isSchemaLoad (events (checkFunc env (NewCheckCmd rawSchema g) s))
  = if String.eqb rawSchema ""
    then [EvCompile (UseLoader NewCompiler loader)
            ("https://www.krakend.io/schema/v" +:+ getVersionMinor (KrakendVersion g)
             +:+ "/krakend.json")]
    else EvUnmarshalJSON rawSchema
           :: match jsonschema_UnmarshalJSON env rawSchema with
              | Ok doc => [EvCompile (AddResource NewCompiler "schema.json" doc) "schema.json"]
              | Err _ => []
              end.
Proof.
  intros Hc Hp Hl Hr Hj Hs Ho.
  exact (schema_calls_by_default env (NewCheckCmd rawSchema g) s v data raw
           Hc Hp Hl Hr Hj Hs Ho).
Qed.

(** When the output is not a terminal the colour codes play no part:
    with any other codes the run is the same, event by event, with the same
    outcome and the same final state. *)
Theorem colours_unused_off_terminal {Fields JSONValue Schema : Type}
    (env : @Env Fields JSONValue Schema) (g : Globals) (red green reset : string)
    (s : State) :
  IsTTY g = false ->
  checkFunc env (withColours g red green reset) s = checkFunc env g s.
Proof.
  intros H. destruct g. cbn [IsTTY] in H. subst. reflexivity.
Qed.

(** ** The further properties on sample inputs *)

Lemma checkFunc_without_path_witness :
  checkFunc (Sample.env None Sample.runs 200) Scenario.noPath (Sample.start "")
  = {| outcome := Exits 1;
       final := Sample.start "";
       events := [EvPrint ("Please, provide the path to the configuration file with --config or see all the options with --help" +:+ nl)] |}.
Proof.
  apply (checkFunc_without_path (Sample.env None Sample.runs 200) Scenario.noPath
           (Sample.start "") eq_refl).
Defined.

Lemma checkFunc_parse_error_witness :
  checkFunc Scenario.rejecting (Sample.flags true false "{}" true) (Sample.start "")
  = {| outcome := Exits 1;
       final := Sample.start "";
       events := [EvPrint ("Parsing configuration file: krakend.json" +:+ nl);
                  EvParse "krakend.json";
                  EvPrint (("ERROR parsing the configuration file:" +:+ tab
                            +:+ "invalid character '}' looking for beginning of value"
                            +:+ nl) +:+ nl)] |}.
Proof.
  apply (checkFunc_parse_error Scenario.rejecting (Sample.flags true false "{}" true)
           (Sample.start "") "invalid character '}' looking for beginning of value").
  - discriminate.
  - reflexivity.
Defined.

Lemma checkFunc_parse_only_witness :
  checkFunc (Sample.env None Sample.runs 200) (Sample.flags false false "" false)
    (Sample.start "")
  = {| outcome := Returns tt;
       final := Sample.start "";
       events := [EvPrint ("Parsing configuration file: krakend.json" +:+ nl);
                  EvParse "krakend.json";
                  EvPrint ("Syntax OK!" +:+ nl)] |}.
Proof.
  apply (checkFunc_parse_only (Sample.env None Sample.runs 200)
           (Sample.flags false false "" false) (Sample.start "") Sample.cfg).
  - discriminate.
  - reflexivity.
  - reflexivity.
  - simpl. lia.
  - reflexivity.
Defined.

Lemma checkFunc_without_lint_witness :
  List.filter isRawSource
    (events (checkFunc (Sample.env None Sample.runs 200) Scenario.coloured
               (Sample.start "./schema.json"))) = [] /\
  List.filter isSchemaLoad
    (events (checkFunc (Sample.env None Sample.runs 200) Scenario.coloured
               (Sample.start "./schema.json"))) = [] /\
  schemaPath (final (checkFunc (Sample.env None Sample.runs 200) Scenario.coloured
                       (Sample.start "./schema.json"))) = "./schema.json".
Proof.
  apply (checkFunc_without_lint (Sample.env None Sample.runs 200) Scenario.coloured
           (Sample.start "./schema.json") eq_refl).
Defined.

Lemma checkFunc_without_routes_witness :
  List.filter isRouter
    (events (checkFunc (Sample.env None Sample.runs 200) Scenario.coloured
               (Sample.start ""))) = [] /\
  contexts (final (checkFunc (Sample.env None Sample.runs 200) Scenario.coloured
                     (Sample.start ""))) = [] /\
  clock (final (checkFunc (Sample.env None Sample.runs 200) Scenario.coloured
                  (Sample.start ""))) = 0.
Proof.
  apply (checkFunc_without_routes (Sample.env None Sample.runs 200) Scenario.coloured
           (Sample.start "") eq_refl).
Defined.

Lemma checkFunc_dump_once_witness :
  List.filter isDump
    (events (checkFunc (Sample.env None Sample.runs 200) (Sample.flags true false "{}" true)
               (Sample.start ""))) = [].
Proof.
  apply (proj1 (checkFunc_dump_once (Sample.env None Sample.runs 200)
                  (Sample.flags true false "{}" true) (Sample.start ""))).
  simpl. lia.
Defined.

Lemma checkFunc_validates_decoded_source_witness :
  exists data c name,
    os_ReadFile (Sample.env None Sample.runs 200) "krakend.json" = Ok data /\
    json_Unmarshal (Sample.env None Sample.runs 200) data = Ok "{}" /\
    In (EvCompile c name)
       (events (checkFunc (Sample.env None Sample.runs 200) Sample.everything
                  (Sample.start ""))) /\
    jsonschema_Compile (Sample.env None Sample.runs 200) c name = Ok "schema.json".
Proof.
  apply (checkFunc_validates_decoded_source (Sample.env None Sample.runs 200)
           Sample.everything (Sample.start "") "schema.json" "{}").
  cbv. repeat first [left; reflexivity | right].
Defined.


Lemma checkFunc_online_not_repeatable_witness :
  schemaPath (final (checkFunc (Sample.env None Sample.runs 200)
                       (Sample.flags true true "{}" false) (Sample.start "")))
  = "https://www.krakend.io/schema/v2.7/krakend.json" /\
  outcome (checkFunc (Sample.env None Sample.runs 200) (Sample.flags true true "{}" false)
             (final (checkFunc (Sample.env None Sample.runs 200)
                       (Sample.flags true true "{}" false) (Sample.start ""))))
  = Exits 1.
Proof.
  destruct (checkFunc_online_not_repeatable (Sample.env None Sample.runs 200)
              (Sample.flags true true "{}" false) (Sample.start "") Sample.cfg "{}" "{}"
              ltac:(discriminate) eq_refl eq_refl eq_refl eq_refl eq_refl eq_refl)
    as (A & B & _).
  split; [exact A | exact B].
Defined.

Lemma NewCheckCmd_decides_default_witness :
  List.filter isSchemaLoad
    (events (checkFunc (Sample.env None Sample.runs 200)
               (NewCheckCmd "" (Sample.flags true false "{}" false)) (Sample.start "")))
  = [EvCompile (UseLoader NewCompiler loader)
       "https://www.krakend.io/schema/v2.7/krakend.json"] /\
  List.filter isSchemaLoad
    (events (checkFunc (Sample.env None Sample.runs 200)
               (NewCheckCmd "{}" (Sample.flags true false "" false)) (Sample.start "")))
  = [EvUnmarshalJSON "{}";
     EvCompile (AddResource NewCompiler "schema.json" "{}") "schema.json"].
Proof.
  split.
  - apply (NewCheckCmd_decides_default (Sample.env None Sample.runs 200)
             (Sample.flags true false "{}" false) "" (Sample.start "") Sample.cfg "{}" "{}");
      first [discriminate | reflexivity].
  - apply (NewCheckCmd_decides_default (Sample.env None Sample.runs 200)
             (Sample.flags true false "" false) "{}" (Sample.start "") Sample.cfg "{}" "{}");
      first [discriminate | reflexivity].
Defined.

Lemma colours_unused_off_terminal_witness :
  checkFunc Scenario.rejecting
    (withColours (Sample.flags true false "{}" true) "<red>" "<green>" "<reset>")
    (Sample.start "")
  = checkFunc Scenario.rejecting (Sample.flags true false "{}" true) (Sample.start "").
Proof.
  apply (colours_unused_off_terminal Scenario.rejecting (Sample.flags true false "{}" true)
           "<red>" "<green>" "<reset>" (Sample.start "") eq_refl).
Defined.
